(** * xarray_annotations: schema validation of labelled arrays

    A shallow embedding of [src/xarray_annotations/lib/schema.py] and
    [src/xarray_annotations/lib/validate.py], followed by the properties of
    the specification that are settled against it.

    Conventions of the embedding.
    - A [Schema] instance is one shared mutable object: the decorators close
      over it and [resolve_expected_dims] / [resolve_expected_coords] assign
      to its fields.  The object lives in the [heap] that every method
      threads; the heap also holds the records sent to [logger.warning].
    - A Python exception is a value of [exn]; a computation that raises
      keeps the heap it had reached (assignments made before the raise stay
      visible to later calls).
    - An f-string is a [message]: the sequence of its literal pieces and of
      the objects it interpolates, in order.
    - A dict is an association list in insertion order (iteration order is
      visible in the messages); keyword arguments, whose order is never
      observed, are a [gmap]. *)

From Stdlib Require Import ZArith QArith String List Bool.
From stdpp Require Import base gmap strings.
Import ListNotations.
Local Open Scope string_scope.
Local Open Scope list_scope.
Local Set Warnings "-register-all".

(** ** Python and numpy values *)

Module py.

(** Coordinate labels: the scalars an index can hold.  [LFloat] stands for a
    finite float, given by the rational it denotes. *)
Inductive label : Type :=
| LInt (z : Z)
| LBool (b : bool)
| LFloat (q : Q)
| LStr (s : string).

(** The number a label compares as under Python's [==] ([True == 1 == 1.0]). *)
Definition label_num (x : label) : option Q :=
  match x with
  | LInt z => Some (inject_Z z)
  | LBool b => Some (inject_Z (if b then 1 else 0))
  | LFloat q => Some q
  | LStr _ => None
  end.

(** [x == y] on labels. *)
Definition label_eqb (x y : label) : bool :=
  match label_num x, label_num y with
  | Some p, Some q => Qeq_bool p q
  | None, None =>
      match x, y with
      | LStr a, LStr b => String.eqb a b
      | _, _ => false
      end
  | _, _ => false
  end.

(** [xs == ys] on lists of labels: same length, equal elements pairwise. *)
Fixpoint labels_eqb (xs ys : list label) : bool :=
  match xs, ys with
  | [], [] => true
  | x :: xs', y :: ys' => label_eqb x y && labels_eqb xs' ys'
  | _, _ => false
  end.

(** [xs == ys] on lists of strings. *)
Fixpoint strs_eqb (xs ys : list string) : bool :=
  match xs, ys with
  | [], [] => true
  | x :: xs', y :: ys' => String.eqb x y && strs_eqb xs' ys'
  | _, _ => false
  end.

(** [x in xs] on lists of strings. *)
Definition str_in (x : string) (xs : list string) : bool :=
  existsb (String.eqb x) xs.

(** [set(found).issuperset(set(expected))]: every expected label equals some
    found label. *)
Definition issuperset (found expected : list label) : bool :=
  forallb (fun e => existsb (label_eqb e) found) expected.

(** Elements of the numeric buffer: IEEE values with their order.  A finite
    value is the rational it denotes; NaN is unordered. *)
Inductive fnum : Type :=
| FNaN
| FNegInf
| FPosInf
| FFin (q : Q).

(** [a < b] on buffer elements. *)
Definition flt (a b : fnum) : bool :=
  match a, b with
  | FNaN, _ | _, FNaN => false
  | FNegInf, FNegInf => false
  | FNegInf, _ => true
  | _, FNegInf => false
  | FPosInf, _ => false
  | FFin _, FPosInf => true
  | FFin p, FFin q => negb (Qle_bool q p)
  end.

(** [a > b]. *)
Definition fgt (a b : fnum) : bool := flt b a.

Definition is_nan (a : fnum) : bool :=
  match a with
  | FNaN => true
  | _ => false
  end.

(** The [.values] of one coordinate: a 0-d array (a scalar coordinate) or a
    1-d array (an index along a dimension). *)
Inductive ndarray : Type :=
| Array0d (x : label)
| Array1d (xs : list label).

(** What [ndarray.tolist()] returns: a bare scalar for a 0-d array, a list
    otherwise. *)
Inductive pyobj : Type :=
| PScalar (x : label)
| PList (xs : list label).

Definition tolist (a : ndarray) : pyobj :=
  match a with
  | Array0d x => PScalar x
  | Array1d xs => PList xs
  end.

(** [isinstance(o, int)]; [bool] is a subclass of [int]. *)
Definition isinstance_int (o : pyobj) : bool :=
  match o with
  | PScalar (LInt _) | PScalar (LBool _) => true
  | _ => false
  end.

(** A dict with string keys, in insertion order. *)
Definition dict (V : Type) : Type := list (string * V).

Definition dict_keys {V} (d : dict V) : list string := map fst d.

(** [d[k]], [None] standing for the [KeyError]. *)
Fixpoint dict_get {V} (d : dict V) (k : string) : option V :=
  match d with
  | [] => None
  | (k', v) :: d' => if String.eqb k k' then Some v else dict_get d' k
  end.

(** [d[k] = v]: overwrite in place, or append a new key. *)
Fixpoint dict_set {V} (d : dict V) (k : string) (v : V) : dict V :=
  match d with
  | [] => [(k, v)]
  | (k', v') :: d' =>
      if String.eqb k k' then (k', v) :: d' else (k', v') :: dict_set d' k v
  end.

(** [a.items() == b.items()] on dicts of label lists: as many items, and
    every item of [a] is an item of [b]. *)
Definition dict_items_eqb (a b : dict (list label)) : bool :=
  Nat.eqb (length a) (length b)
  && forallb (fun kv =>
       match dict_get b (fst kv) with
       | Some v => labels_eqb (snd kv) v
       | None => false
       end) a.

(** [xr.DataArray]: dimension names, the coordinate mapping and the buffer
    (flattened: the checks only reduce over it with [any]). *)
Record DataArray : Type := mkDataArray {
  dims : list string;
  coords : dict ndarray;
  values : list fnum
}.

(** What a keyword or positional argument can hold. *)
Inductive pyval : Type :=
| VNone
| VInt (z : Z)
| VStr (s : string)
| VLabels (xs : list label)
| VArray (a : DataArray).

(** Objects interpolated into messages. *)
Inductive obj : Type :=
| OStr (s : string)
| OStrList (l : list string)
| OStrTuple (l : list string)
| OKeys (l : list string)
| OLabels (l : list label)
| ODict (d : dict (list label))
| ONum (x : fnum).

Inductive piece : Type :=
| Lit (s : string)
| Interp (o : obj).

Definition message : Type := list piece.

(** [sep.join(parts)] on formatted strings. *)
Fixpoint join (sep : string) (parts : list message) : message :=
  match parts with
  | [] => []
  | [p] => p
  | p :: ps => p ++ Lit sep :: join sep ps
  end.

Inductive exn : Type :=
| Exception (msg : message)
| KeyError (key : string)
| TypeError (what : string)
| AttributeError (attr : string)
| ValueError (what : string).

#[global] Instance exn_ret : MRet (sum exn) := fun A a => inr a.
#[global] Instance exn_bind : MBind (sum exn) := fun A B k m =>
  match m with
  | inl e => inl e
  | inr a => k a
  end.

(** [a.item()]: the one element of a size-1 array. *)
Definition item (a : ndarray) : exn + label :=
  match a with
  | Array0d x => inr x
  | Array1d [x] => inr x
  | Array1d _ => inl (ValueError "can only convert an array of size 1 to a Python scalar")
  end.

(** [list(a)]: iterating a 0-d array raises. *)
Definition list_ (a : ndarray) : exn + list label :=
  match a with
  | Array0d _ => inl (TypeError "iteration over a 0-d array")
  | Array1d xs => inr xs
  end.

(** Attribute access on an argument; only a [DataArray] has the attributes
    the checks read. *)
Definition attr {A} (name : string) (proj : DataArray -> A) (data : pyval) : exn + A :=
  match data with
  | VArray a => inr (proj a)
  | _ => inl (AttributeError name)
  end.

End py.
Export py.

(** ** schema.py *)

Module schema.

Definition EXACT_MATCH_TYPE : string := "exact".
Definition MINIMUM_MATCH_TYPE : string := "minimum".
Definition VALID_MATCH_TYPES : list string := [EXACT_MATCH_TYPE; MINIMUM_MATCH_TYPE].

(** [coords_as_dict]: the loop over [data.coords.items()], threading
    [coord_dict]. *)
Fixpoint coords_as_dict_loop (items : dict ndarray) (coord_dict : dict (list label))
  : exn + dict (list label) :=
  match items with
  | [] => inr coord_dict
  | (item_name, value) :: rest =>
      val_to_add ← (if isinstance_int (tolist value)
                    then x ← item value; mret [x]
                    else list_ value);
      coords_as_dict_loop rest (dict_set coord_dict item_name val_to_add)
  end.

Definition coords_as_dict (data : pyval) : exn + dict (list label) :=
  items ← attr "coords" coords data;
  coords_as_dict_loop items [].

(** An expectation is a concrete collection or a callback computing one from
    the keyword arguments.  A callback may raise, and nothing forces what it
    returns to be concrete. *)
Inductive expectation (A : Type) : Type :=
| Concrete (a : A)
| Dynamic (f : gmap string pyval -> exn + expectation A).
Arguments Concrete {A} a.
Arguments Dynamic {A} f.

Record Schema : Type := mkSchema {
  _expected_dims : expectation (list string);
  _expected_coords : expectation (dict (list label));
  _dim_match_type : string;
  _coord_match_type : string;
  _min_value : fnum;
  _max_value : fnum;
  _nan_values_allowed : bool;
  _raise_errors : bool
}.

(** [Schema.__init__]: the constructed instance, or the exception raised. *)
Definition __init__
    (expected_dims : expectation (list string)) (dim_match_type : string)
    (expected_coords : expectation (dict (list label))) (coord_match_type : string)
    (minimum_value maximum_value : fnum)
    (nan_values_allowed raise_errors : bool) : exn + Schema :=
  if negb (str_in dim_match_type VALID_MATCH_TYPES)
  then inl (Exception [Lit "Invalid match type: "; Interp (OStr dim_match_type);
                       Lit ". Please supply one of the following: ";
                       Interp (OStrList VALID_MATCH_TYPES); Lit "."])
  else inr {| _expected_dims := expected_dims;
              _expected_coords := expected_coords;
              _dim_match_type := dim_match_type;
              _coord_match_type := coord_match_type;
              _min_value := minimum_value;
              _max_value := maximum_value;
              _nan_values_allowed := nan_values_allowed;
              _raise_errors := raise_errors |}.

(** The defaults of the constructor's parameters. *)
Definition Schema_defaults : exn + Schema :=
  __init__ (Concrete []) EXACT_MATCH_TYPE (Concrete []) EXACT_MATCH_TYPE
           FNegInf FPosInf true true.

(** The store: the schema instance and the warnings logged so far. *)
Record heap : Type := mkHeap {
  self : Schema;
  log : list message
}.

Definition M (A : Type) : Type := heap -> (exn + A) * heap.

#[global] Instance M_ret : MRet M := fun A a h => (inr a, h).
#[global] Instance M_bind : MBind M := fun A B k m h =>
  match m h with
  | (inl e, h') => (inl e, h')
  | (inr a, h') => k a h'
  end.

Definition raise {A} (e : exn) : M A := fun h => (inl e, h).

(** A pure computation that may raise, run in the store. *)
Definition lift {A} (r : exn + A) : M A := fun h => (r, h).

Definition get_self : M Schema := fun h => (inr (self h), h).

(** [self._expected_dims = v] and [self._expected_coords = v]. *)
Definition with_expected_dims (s : Schema) (v : expectation (list string)) : Schema :=
  {| _expected_dims := v;
     _expected_coords := _expected_coords s;
     _dim_match_type := _dim_match_type s;
     _coord_match_type := _coord_match_type s;
     _min_value := _min_value s;
     _max_value := _max_value s;
     _nan_values_allowed := _nan_values_allowed s;
     _raise_errors := _raise_errors s |}.

Definition with_expected_coords (s : Schema) (v : expectation (dict (list label))) : Schema :=
  {| _expected_dims := _expected_dims s;
     _expected_coords := v;
     _dim_match_type := _dim_match_type s;
     _coord_match_type := _coord_match_type s;
     _min_value := _min_value s;
     _max_value := _max_value s;
     _nan_values_allowed := _nan_values_allowed s;
     _raise_errors := _raise_errors s |}.

Definition set_expected_dims (v : expectation (list string)) : M unit := fun h =>
  (inr tt, {| self := with_expected_dims (self h) v; log := log h |}).

Definition set_expected_coords (v : expectation (dict (list label))) : M unit := fun h =>
  (inr tt, {| self := with_expected_coords (self h) v; log := log h |}).

(** [logger.warning(message)]. *)
Definition logger_warning (msg : message) : M unit := fun h =>
  (inr tt, {| self := self h; log := log h ++ [msg] |}).

(** Reading an expectation as a collection ([len], [.items()], [==]): a
    function object supports none of them. *)
Definition collection {A} (e : expectation A) : M A :=
  match e with
  | Concrete a => mret a
  | Dynamic _ => raise (TypeError "object of type 'function' has no len()")
  end.

Definition resolve_expected_dims (kwargs : gmap string pyval) : M unit :=
  s ← get_self;
  match _expected_dims s with
  | Dynamic f => v ← lift (f kwargs); set_expected_dims v
  | Concrete _ => mret tt
  end.

Definition resolve_expected_coords (kwargs : gmap string pyval) : M unit :=
  s ← get_self;
  match _expected_coords s with
  | Dynamic f => v ← lift (f kwargs); set_expected_coords v
  | Concrete _ => mret tt
  end.

Definition _log_or_raise (msg : message) : M unit :=
  s ← get_self;
  if _raise_errors s then raise (Exception msg) else logger_warning msg.

Definition _match_dims_exactly (data : pyval) : M unit :=
  s ← get_self;
  expected ← collection (_expected_dims s);
  if Nat.eqb (length expected) 0 then mret tt else
  found ← lift (attr "dims" dims data);
  if negb (strs_eqb found expected)
  then _log_or_raise
         [Lit "Data dims do not exactly match the expected ones. Expected: ";
          Interp (OStrList expected); Lit ". Found: "; Interp (OStrTuple found);
          Lit "."]
  else mret tt.

Definition _match_minimum_dims (data : pyval) : M unit :=
  s ← get_self;
  expected ← collection (_expected_dims s);
  if Nat.eqb (length expected) 0 then mret tt else
  let missing_dims := List.filter (fun dim => negb (str_in dim expected)) expected in
  if negb (Nat.eqb (length missing_dims) 0)
  then found ← lift (attr "dims" dims data);
       _log_or_raise
         [Lit "Data dims do not contain the minimum expected ones. Expected: ";
          Interp (OStrList expected); Lit ". Found: "; Interp (OStrTuple found);
          Lit ". Missing: "; Interp (OStrList missing_dims); Lit "."]
  else mret tt.

Definition _match_coords_exactly (data : pyval) : M unit :=
  s ← get_self;
  expected ← collection (_expected_coords s);
  if Nat.eqb (length expected) 0 then mret tt else
  found ← lift (coords_as_dict data);
  if negb (dict_items_eqb expected found)
  then _log_or_raise
         [Lit "Data coords to not exactly match the expected ones. Expected: ";
          Interp (ODict expected); Lit ". Found: "; Interp (ODict found); Lit "."]
  else mret tt.

(** The loop of [_match_minimum_coords] over [expected_coords.items()],
    threading the two accumulators.  [coords[coord_name]] is evaluated for
    every key, present or not. *)
Fixpoint minimum_coords_loop (found : dict (list label)) (items : dict (list label))
    (missing_coords mismatching_coord_values : list string)
  : exn + (list string * list string) :=
  match items with
  | [] => inr (missing_coords, mismatching_coord_values)
  | (coord_name, expected_coord_values) :: rest =>
      let missing_coords :=
        if negb (str_in coord_name (dict_keys found))
        then missing_coords ++ [coord_name] else missing_coords in
      match dict_get found coord_name with
      | None => inl (KeyError coord_name)
      | Some found_values =>
          let mismatching_coord_values :=
            if negb (issuperset found_values expected_coord_values)
            then mismatching_coord_values ++ [coord_name]
            else mismatching_coord_values in
          minimum_coords_loop found rest missing_coords mismatching_coord_values
      end
  end.

(** The list comprehension building [expected_str]. *)
Fixpoint expected_parts (expected : dict (list label)) (names : list string)
  : exn + list message :=
  match names with
  | [] => inr []
  | coord :: rest =>
      match dict_get expected coord with
      | None => inl (KeyError coord)
      | Some vals =>
          ps ← expected_parts expected rest;
          mret ([Interp (OStr coord); Lit ": "; Interp (OLabels vals)] :: ps)
      end
  end.

(** The list comprehension building [found_str]. *)
Definition found_parts (found : dict (list label)) (names : list string) : list message :=
  map (fun cv => [Interp (OStr (fst cv)); Lit ": "; Interp (OLabels (snd cv))])
      (List.filter (fun cv => str_in (fst cv) names) found).

Definition _match_minimum_coords (data : pyval) : M unit :=
  s ← get_self;
  expected ← collection (_expected_coords s);
  if Nat.eqb (length expected) 0 then mret tt else
  found ← lift (coords_as_dict data);
  acc ← lift (minimum_coords_loop found expected [] []);
  let missing_coords := fst acc in
  let mismatching_coord_values := snd acc in
  (if negb (Nat.eqb (length missing_coords) 0)
   then _log_or_raise
          [Lit "Data is missing coordinate(s): "; Interp (OStrList missing_coords);
           Lit ". Expected: "; Interp (OKeys (dict_keys expected));
           Lit ". Found: "; Interp (OKeys (dict_keys found))]
   else mret tt);;
  (if negb (Nat.eqb (length mismatching_coord_values) 0)
   then eparts ← lift (expected_parts expected mismatching_coord_values);
        let expected_str := join ", " eparts in
        let found_str := join ", " (found_parts found mismatching_coord_values) in
        _log_or_raise
          ([Lit "Data has mismatching coordinate values for coords: ";
            Interp (OStrList mismatching_coord_values); Lit ". Expected: "]
           ++ expected_str ++ [Lit ". Found: "] ++ found_str ++ [Lit "."])
   else mret tt).

Definition _ensure_values_above_minimum (data : pyval) : M unit :=
  s ← get_self;
  vals ← lift (attr "values" values data);
  if existsb (fun v => flt v (_min_value s)) vals
  then _log_or_raise
         [Lit "Identified values less than the set minimum: ";
          Interp (ONum (_min_value s)); Lit "."]
  else mret tt.

Definition _ensure_values_below_maximum (data : pyval) : M unit :=
  s ← get_self;
  vals ← lift (attr "values" values data);
  if existsb (fun v => fgt v (_max_value s)) vals
  then _log_or_raise
         [Lit "Identified values greater than the set maximum: ";
          Interp (ONum (_max_value s)); Lit "."]
  else mret tt.

Definition _ensure_no_nan_values (data : pyval) : M unit :=
  vals ← lift (attr "isnull" values data);
  if existsb is_nan vals
  then _log_or_raise [Lit "Identified NaN values!"]
  else mret tt.

Definition validate (data : pyval) : M unit :=
  s ← get_self;
  (if String.eqb (_dim_match_type s) EXACT_MATCH_TYPE
   then _match_dims_exactly data
   else _match_minimum_dims data);;
  (if String.eqb (_coord_match_type s) "exact"
   then _match_coords_exactly data
   else _match_minimum_coords data);;
  (if negb (_nan_values_allowed s)
   then _ensure_no_nan_values data
   else mret tt);;
  _ensure_values_above_minimum data;;
  _ensure_values_below_maximum data.

End schema.
Export schema.

(** ** validate.py

    The decorators close over the schema object of the store.  The wrapped
    function is any computation on the store: it may log, raise, or touch
    the schema. *)

Module validate.

Definition callable : Type := list pyval -> gmap string pyval -> M pyval.

(** [kwargs[arg_name]]. *)
Definition subscript (kwargs : gmap string pyval) (arg_name : string) : M pyval :=
  match kwargs !! arg_name with
  | Some v => mret v
  | None => raise (KeyError arg_name)
  end.

(** [check_input(schema, arg_name)(func)] is the [wrapper]. *)
Definition check_input (arg_name : string) (func : callable) : callable :=
  fun args kwargs =>
    schema.resolve_expected_dims kwargs;;
    schema.resolve_expected_coords kwargs;;
    arg ← subscript kwargs arg_name;
    schema.validate arg;;
    func args kwargs.


End validate.
Export validate.

(** ** Vocabulary of the specification *)

(** The message interpolates the object [o]. *)
Definition names (m : message) (o : obj) : Prop := In (Interp o) m.

(** The message interpolates some element of the array's buffer. *)
Definition names_some_value (d : DataArray) (m : message) : Prop :=
  exists x, In x (values d) /\ names m (ONum x).

(** The violation messages a run produced: the warnings in the log, then the
    message of the [Exception] it ended with, if any. *)
Definition emitted {A} (res : (exn + A) * heap) : list message :=
  log (snd res) ++
  match fst res with
  | inl (Exception m) => [m]
  | _ => []
  end.

Definition below_minimum_message (s : Schema) : message :=
  [Lit "Identified values less than the set minimum: ";
   Interp (ONum (_min_value s)); Lit "."].

Definition above_maximum_message (s : Schema) : message :=
  [Lit "Identified values greater than the set maximum: ";
   Interp (ONum (_max_value s)); Lit "."].

Definition nan_message : message := [Lit "Identified NaN values!"].

(** A dimension or coordinate message that shows the expectation next to
    what the array has. *)
Definition names_expected_and_found (s : Schema) (d : DataArray) (m : message) : Prop :=
  (exists e, _expected_dims s = Concrete e /\
     names m (OStrList e) /\ names m (OStrTuple (dims d)))
  \/ (exists e f, _expected_coords s = Concrete e /\
        coords_as_dict (VArray d) = inr f /\
        names m (ODict e) /\ names m (ODict f))
  \/ (exists e f bad, _expected_coords s = Concrete e /\
        coords_as_dict (VArray d) = inr f /\
        names m (OStrList bad) /\
        forall c, In c bad ->
          exists ev fv, dict_get e c = Some ev /\ dict_get f c = Some fv /\
            names m (OLabels ev) /\ names m (OLabels fv)).

(** A bound message: the configured bound and nothing of the array. *)
Definition names_bound_only (s : Schema) (d : DataArray) (m : message) : Prop :=
  (m = below_minimum_message s /\
     existsb (fun v => flt v (_min_value s)) (values d) = true)
  \/ (m = above_maximum_message s /\
        existsb (fun v => fgt v (_max_value s)) (values d) = true).

(** The NaN message: a fixed text. *)
Definition fixed_nan_text (s : Schema) (d : DataArray) (m : message) : Prop :=
  m = nan_message /\ _nan_values_allowed s = false /\
  existsb is_nan (values d) = true.

(** What a violation message of [validate] shows, by kind. *)
Definition violation_message (s : Schema) (d : DataArray) (m : message) : Prop :=
  names_expected_and_found s d m \/ names_bound_only s d m \/ fixed_nan_text s d m.

(** The same schema in raising ([true]) or logging ([false]) mode. *)
Definition with_raise_errors (s : Schema) (b : bool) : Schema :=
  {| _expected_dims := _expected_dims s;
     _expected_coords := _expected_coords s;
     _dim_match_type := _dim_match_type s;
     _coord_match_type := _coord_match_type s;
     _min_value := _min_value s;
     _max_value := _max_value s;
     _nan_values_allowed := _nan_values_allowed s;
     _raise_errors := b |}.

(** [coupled s c_log c_raise]: [c_log], run on [s] in logging mode, appends
    some messages [new] to the log and ends with [r], never an [Exception];
    [c_raise], run on [s] in raising mode, logs nothing and raises the first
    message of [new], or ends with the same [r] when [new] is empty. *)
Definition coupled (s : Schema) {A} (c_log c_raise : M A) : Prop :=
  forall lg0 lg, exists r new,
    c_log (mkHeap (with_raise_errors s false) lg0)
    = (r, mkHeap (with_raise_errors s false) (lg0 ++ new))
    /\ (forall m, r <> inl (Exception m))
    /\ c_raise (mkHeap (with_raise_errors s true) lg)
       = match new with
         | [] => (r, mkHeap (with_raise_errors s true) lg)
         | m :: _ => (inl (Exception m), mkHeap (with_raise_errors s true) lg)
         end.

(** [emits s0 P c]: started on the schema [s0] with a log of [P]-messages,
    [c] leaves the schema as it is and every message it logs or raises
    satisfies [P]. *)
Definition emits (s0 : Schema) (P : message -> Prop) {A} (c : M A) : Prop :=
  forall h, self h = s0 -> Forall P (log h) ->
    self (snd (c h)) = s0 /\ Forall P (emitted (c h)).

(** Expose the state passing behind the monadic notation. *)
Ltac run :=
  unfold collection, mbind, mret, M_bind, M_ret, exn_bind, exn_ret,
    get_self, raise, lift, logger_warning, set_expected_dims,
    set_expected_coords in *;
  cbn [self log fst snd] in *.

(** Case analysis on the innermost scrutinee, again and again. *)
Ltac case_all :=
  repeat (cbn beta iota;
          match goal with
          | |- context [match ?x with _ => _ end] =>
              lazymatch x with
              | context [match _ with _ => _ end] => fail
              | _ => destruct x
              end
          end).

(** Reduce the fields of a schema put in raising or logging mode. *)
Ltac fields :=
  cbv beta;
  cbn [with_raise_errors _expected_dims _expected_coords _dim_match_type
       _coord_match_type _min_value _max_value _nan_values_allowed].

(** ** Sample schemas and arrays (from the demos and the tests) *)

Definition num (z : Z) : fnum := FFin (inject_Z z).

Definition schema_of (expected_dims : list string) (dim_match_type : string)
    (expected_coords : dict (list label)) (coord_match_type : string)
    (minimum_value maximum_value : fnum) (raise_errors : bool) : Schema :=
  {| _expected_dims := Concrete expected_dims;
     _expected_coords := Concrete expected_coords;
     _dim_match_type := dim_match_type;
     _coord_match_type := coord_match_type;
     _min_value := minimum_value;
     _max_value := maximum_value;
     _nan_values_allowed := true;
     _raise_errors := raise_errors |}.

(** [xr.DataArray(data=[[v, v], [v, v]], dims=["foo", "bar"],
    coords={"foo": [1, 2], "bar": [3, 4]})]. *)
Definition foo_bar_array (v : Z) : DataArray :=
  {| dims := ["foo"; "bar"];
     coords := [("foo", Array1d [LInt 1; LInt 2]); ("bar", Array1d [LInt 3; LInt 4])];
     values := [num v; num v; num v; num v] |}.

(** [foo_bar_array(1).sel(bar=3, drop=True)]: only the dimension [foo] is left. *)
Definition foo_array : DataArray :=
  {| dims := ["foo"];
     coords := [("foo", Array1d [LInt 1; LInt 2])];
     values := [num 1; num 1] |}.

(** [foo_bar_array(1).sel(bar=3)]: [bar] stays as a scalar coordinate. *)
Definition foo_array_scalar_bar (bar : label) : DataArray :=
  {| dims := ["foo"];
     coords := [("foo", Array1d [LInt 1; LInt 2]); ("bar", Array0d bar)];
     values := [num 1; num 1] |}.

(** Callbacks after [demo_check_output_coord_callback.py]: they need the
    keyword [gbd_round_id] and raise their own error without it.  (The demo
    returns its label lists for both; here the first returns dimension
    names.) *)
Definition get_main_schema_dims (kwargs : gmap string pyval)
  : exn + expectation (list string) :=
  match kwargs !! "gbd_round_id" with
  | None | Some VNone =>
      inl (Exception [Lit "Could not get coordinates, ``gbd_round_id`` parameter not found."])
  | Some (VInt 6) => inr (Concrete ["foo"])
  | Some _ => inr (Concrete ["bar"])
  end.

Definition get_main_schema_coords (kwargs : gmap string pyval)
  : exn + expectation (dict (list label)) :=
  match kwargs !! "gbd_round_id" with
  | None | Some VNone =>
      inl (Exception [Lit "Could not get coordinates, ``gbd_round_id`` parameter not found."])
  | Some (VInt 6) => inr (Concrete [("foo", [LInt 1; LInt 2])])
  | Some _ => inr (Concrete [("bar", [LInt 3; LInt 4])])
  end.

Definition dynamic_schema : Schema :=
  {| _expected_dims := Dynamic get_main_schema_dims;
     _expected_coords := Dynamic get_main_schema_coords;
     _dim_match_type := "minimum";
     _coord_match_type := "minimum";
     _min_value := num (-100);
     _max_value := num 100;
     _nan_values_allowed := true;
     _raise_errors := true |}.

(** A wrapped function that returns its keyword argument [bar]. *)
Definition return_bar : callable := fun _ kwargs =>
  match kwargs !! "bar" with
  | Some v => mret v
  | None => mret VNone
  end.

(** ** Vocabulary of the further properties *)

(** Where a violation message ends up: raised, or appended to the log. *)
Definition reported (s : Schema) (lg : list message) (msg : message)
  : (exn + unit) * heap :=
  if _raise_errors s
  then (inl (Exception msg), mkHeap s lg)
  else (inr tt, mkHeap s (lg ++ [msg])).

Definition dims_exact_message (expected found : list string) : message :=
  [Lit "Data dims do not exactly match the expected ones. Expected: ";
   Interp (OStrList expected); Lit ". Found: "; Interp (OStrTuple found); Lit "."].


(** The schema [Schema()] builds. *)
Definition default_schema : Schema :=
  {| _expected_dims := Concrete [];
     _expected_coords := Concrete [];
     _dim_match_type := EXACT_MATCH_TYPE;
     _coord_match_type := EXACT_MATCH_TYPE;
     _min_value := FNegInf;
     _max_value := FPosInf;
     _nan_values_allowed := true;
     _raise_errors := true |}.

(** The label list [coords_as_dict] stores for one coordinate, when it can. *)
Definition coord_labels (a : ndarray) : option (list label) :=
  match a with
  | Array1d xs => Some xs
  | Array0d (LInt z) => Some [LInt z]
  | Array0d (LBool b) => Some [LBool b]
  | Array0d _ => None
  end.

Definition labels_of (a : ndarray) : list label :=
  match coord_labels a with
  | Some xs => xs
  | None => []
  end.


(** An expected item whose key the found mapping lacks. *)
Definition absent (found : dict (list label)) (kv : string * list label) : bool :=
  negb (str_in (fst kv) (dict_keys found)).

(** An expected item whose found labels do not contain the expected ones. *)
Definition mismatching (found : dict (list label)) (kv : string * list label) : bool :=
  match dict_get found (fst kv) with
  | Some found_values => negb (issuperset found_values (snd kv))
  | None => false
  end.

(** The array without its NaN elements. *)
Definition without_nan (d : DataArray) : DataArray :=
  {| dims := dims d;
     coords := coords d;
     values := List.filter (fun v => negb (is_nan v)) (values d) |}.

(** ** Running the primitives *)

Lemma bind_run {A B} (c : M A) (k : A -> M B) (h : heap) :
  (c ≫= k) h = match c h with
               | (inl e, h') => (inl e, h')
               | (inr a, h') => k a h'
               end.
Proof. reflexivity. Qed.

Lemma get_self_run {B} (k : Schema -> M B) (h : heap) :
  (get_self ≫= k) h = k (self h) h.
Proof. reflexivity. Qed.

Lemma _log_or_raise_run (msg : message) (s : Schema) (lg : list message) :
  _log_or_raise msg (mkHeap s lg) =
  if _raise_errors s
  then (inl (Exception msg), mkHeap s lg)
  else (inr tt, mkHeap s (lg ++ [msg])).
Proof. unfold _log_or_raise; run. destruct (_raise_errors s); reflexivity. Qed.

Lemma str_in_self (x : string) (xs : list string) : In x xs -> str_in x xs = true.
Proof.
  unfold str_in. intros Hx. apply existsb_exists.
  exists x. split; [exact Hx | apply String.eqb_refl].
Qed.

(** The list [missing_dims] built by [_match_minimum_dims] is always empty:
    each name is looked up in the list it was taken from. *)
Lemma missing_dims_nil (expected : list string) :
  List.filter (fun dim => negb (str_in dim expected)) expected = [].
Proof.
  assert (H : forall l, (forall x, In x l -> In x expected) ->
                        List.filter (fun dim => negb (str_in dim expected)) l = []).
  { induction l as [|x l IH]; intros Hl; [reflexivity|].
    cbn [List.filter]. rewrite (str_in_self x expected) by (apply Hl; left; reflexivity).
    cbn. apply IH. intros y Hy. apply Hl. right. exact Hy. }
  apply H. auto.
Qed.

Lemma _match_minimum_dims_silent (s : Schema) (expected : list string)
    (data : pyval) (lg : list message) :
  _expected_dims s = Concrete expected ->
  _match_minimum_dims data (mkHeap s lg) = (inr tt, mkHeap s lg).
Proof.
  intros He. unfold _match_minimum_dims; run. rewrite He; run.
  destruct (Nat.eqb (length expected) 0); [reflexivity|].
  rewrite missing_dims_nil. reflexivity.
Qed.

(** ** The dimension check in MINIMUM mode *)

(** C1 (the code departs from the claim).  In MINIMUM mode the dimension
    check never reports a missing dimension, whatever the expected names and
    whatever the array: the expected names are compared with themselves.  In
    particular the schema expecting [foo] and [bar] accepts, in raising mode,
    an array whose only dimension is [foo]. *)
Theorem C1_minimum_dims_never_reports :
  (forall (expected : list string) (expected_coords : expectation (dict (list label)))
          (coord_match_type : string) (mn mx : fnum) (nan raise_errors : bool)
          (d : DataArray) (lg : list message),
      let s := {| _expected_dims := Concrete expected;
                  _expected_coords := expected_coords;
                  _dim_match_type := MINIMUM_MATCH_TYPE;
                  _coord_match_type := coord_match_type;
                  _min_value := mn; _max_value := mx;
                  _nan_values_allowed := nan; _raise_errors := raise_errors |} in
      _match_minimum_dims (VArray d) (mkHeap s lg) = (inr tt, mkHeap s lg))
  /\ (let s := schema_of ["foo"; "bar"] "minimum" [] "exact" FNegInf FPosInf true in
      str_in "bar" (dims foo_array) = false /\
      validate (VArray foo_array) (mkHeap s []) = (inr tt, mkHeap s [])).
Proof.
  split.
  - intros. eapply _match_minimum_dims_silent. reflexivity.
  - cbv zeta. split; vm_compute; reflexivity.
Qed.

(** ** The coordinate check in MINIMUM mode *)

(** C2 (the code departs from the claim).  The schema expects coordinates
    for [foo] and [bar]; the array has none for [bar].  The loop records
    [bar] as missing and then still subscripts the array's coordinates with
    it: a [KeyError] leaves [validate], in raising and in logging mode alike,
    and no missing-coordinate message is raised or logged. *)
Theorem C2_missing_coordinate_raises_KeyError :
  let expected := [("foo", [LInt 1; LInt 2]); ("bar", [LInt 3; LInt 4])] in
  let s (raise_errors : bool) :=
    schema_of [] "exact" expected "minimum" FNegInf FPosInf raise_errors in
  str_in "bar" (dict_keys (coords foo_array)) = false
  /\ _match_minimum_coords (VArray foo_array) (mkHeap (s true) [])
     = (inl (KeyError "bar"), mkHeap (s true) [])
  /\ validate (VArray foo_array) (mkHeap (s true) [])
     = (inl (KeyError "bar"), mkHeap (s true) [])
  /\ validate (VArray foo_array) (mkHeap (s false) [])
     = (inl (KeyError "bar"), mkHeap (s false) []).
Proof. cbv zeta. repeat split; vm_compute; reflexivity. Qed.

(** ** Construction *)

(** C3 (the code departs from the claim).  The constructor tests
    [dim_match_type] only: with a valid [dim_match_type] it returns an
    instance for every [coord_match_type], the string [bogus] included,
    while the same string as [dim_match_type] is refused. *)
Theorem C3_init_ignores_coord_match_type :
  (forall (expected_dims : expectation (list string))
          (expected_coords : expectation (dict (list label)))
          (coord_match_type : string) (mn mx : fnum) (nan raise_errors : bool),
      __init__ expected_dims EXACT_MATCH_TYPE expected_coords coord_match_type
               mn mx nan raise_errors
      = inr {| _expected_dims := expected_dims;
               _expected_coords := expected_coords;
               _dim_match_type := EXACT_MATCH_TYPE;
               _coord_match_type := coord_match_type;
               _min_value := mn; _max_value := mx;
               _nan_values_allowed := nan; _raise_errors := raise_errors |})
  /\ str_in "bogus" VALID_MATCH_TYPES = false
  /\ __init__ (Concrete []) "exact" (Concrete []) "bogus" FNegInf FPosInf true true
     = inr {| _expected_dims := Concrete [];
              _expected_coords := Concrete [];
              _dim_match_type := "exact";
              _coord_match_type := "bogus";
              _min_value := FNegInf; _max_value := FPosInf;
              _nan_values_allowed := true; _raise_errors := true |}
  /\ (exists msg,
        __init__ (Concrete []) "bogus" (Concrete []) "exact" FNegInf FPosInf true true
        = inl (Exception msg)).
Proof.
  split; [intros; reflexivity|].
  split; [reflexivity|].
  split; [reflexivity|].
  eexists. vm_compute. reflexivity.
Qed.

(** ** Raising and logging *)

(** C4 (the code departs from the claim).  In logging mode [validate] does
    not always return normally: for the schema and the array of C2 it ends
    with a [KeyError] in the coordinate check; nothing is logged and the
    NaN and bound checks are not reached, although every element is below
    the minimum of 5. *)
Theorem C4_logging_mode_does_not_return :
  let expected := [("foo", [LInt 1; LInt 2]); ("bar", [LInt 3; LInt 4])] in
  let s := schema_of [] "exact" expected "minimum" (num 5) FPosInf false in
  _raise_errors s = false
  /\ existsb (fun v => flt v (_min_value s)) (values foo_array) = true
  /\ validate (VArray foo_array) (mkHeap s []) = (inl (KeyError "bar"), mkHeap s []).
Proof. cbv zeta. repeat split; vm_compute; reflexivity. Qed.

(** ** Coordinate extraction *)

(** C9 (the code departs from the claim).  A scalar coordinate is wrapped in
    a one-element list when its value is an [int]; a scalar coordinate of
    any other type goes to [list(value.values)], which raises on a 0-d
    array. *)
Theorem C9_scalar_coordinate_not_int_raises :
  coords_as_dict (VArray (foo_array_scalar_bar (LInt 3)))
  = inr [("foo", [LInt 1; LInt 2]); ("bar", [LInt 3])]
  /\ coords_as_dict (VArray (foo_array_scalar_bar (LFloat (7 # 2))))
     = inl (TypeError "iteration over a 0-d array")
  /\ coords_as_dict (VArray (foo_array_scalar_bar (LStr "x")))
     = inl (TypeError "iteration over a 0-d array").
Proof. repeat split; vm_compute; reflexivity. Qed.

(** ** What a computation on the store may emit *)

Section Emits.

Variable s0 : Schema.
Variable P : message -> Prop.

Lemma emitted_inr {A} (a : A) (h : heap) : emitted (inr a, h) = log h.
Proof. unfold emitted; cbn. apply app_nil_r. Qed.

Lemma emits_ret {A} (a : A) : emits s0 P (mret a).
Proof. intros h Hs Hl. run. rewrite emitted_inr. auto. Qed.

Lemma emits_lift {A} (r : exn + A) :
  (forall m, r <> inl (Exception m)) -> emits s0 P (lift r).
Proof.
  intros Hr h Hs Hl. run. split; [exact Hs|].
  unfold emitted; cbn.
  destruct r as [[m| | | |]|a]; rewrite ?app_nil_r; auto.
  exfalso. apply (Hr m). reflexivity.
Qed.

Lemma emits_bind {A B} (c : M A) (k : A -> M B) :
  emits s0 P c -> (forall a, emits s0 P (k a)) -> emits s0 P (c ≫= k).
Proof.
  intros Hc Hk h Hs Hl. destruct (Hc h Hs Hl) as [Hs' Hl'].
  run. destruct (c h) as [[e|a] h']; cbn in *.
  - auto.
  - rewrite emitted_inr in Hl'. apply (Hk a h' Hs' Hl').
Qed.

Lemma emits_get_self {B} (k : Schema -> M B) :
  emits s0 P (k s0) -> emits s0 P (get_self ≫= k).
Proof. intros Hk h Hs Hl. run. rewrite Hs. apply (Hk h Hs Hl). Qed.

Lemma emits_log_or_raise (msg : message) : P msg -> emits s0 P (_log_or_raise msg).
Proof.
  intros Hm [s lg] Hs Hl. rewrite _log_or_raise_run. cbn in *.
  destruct (_raise_errors s); unfold emitted; cbn.
  - split; [exact Hs|]. apply Forall_app. auto.
  - split; [exact Hs|]. rewrite app_nil_r. apply Forall_app. auto.
Qed.

Lemma emits_lift_bind {A B} (r : exn + A) (k : A -> M B) :
  (forall m, r <> inl (Exception m)) ->
  (forall a, r = inr a -> emits s0 P (k a)) ->
  emits s0 P (lift r ≫= k).
Proof.
  intros Hr Hk. destruct r as [e|a].
  - change (lift (inl e) ≫= k) with (@lift B (inl e)).
    apply emits_lift. intros m Hm. apply (Hr m). congruence.
  - change (lift (inr a) ≫= k) with (k a). apply Hk. reflexivity.
Qed.

Lemma emits_collection_bind {A B} (e : expectation A) (k : A -> M B) :
  (forall a, e = Concrete a -> emits s0 P (k a)) ->
  emits s0 P (collection e ≫= k).
Proof.
  intros Hk. destruct e as [a|f].
  - change (collection (Concrete a) ≫= k) with (k a). apply Hk. reflexivity.
  - apply (emits_lift (inl (TypeError "object of type 'function' has no len()"))).
    congruence.
Qed.

End Emits.

(** The pure parts of the checks never raise [Exception]: that class is
    raised by [_log_or_raise] alone. *)
Lemma attr_not_Exception {A} (name : string) (proj : DataArray -> A) (data : pyval) (m : message) :
  attr name proj data <> inl (Exception m).
Proof. destruct data; cbn; congruence. Qed.

Lemma coords_as_dict_loop_not_Exception (items : dict ndarray) (acc : dict (list label)) (m : message) :
  coords_as_dict_loop items acc <> inl (Exception m).
Proof.
  revert acc. induction items as [|[k v] items IH]; intros acc; cbn; [congruence|].
  destruct v as [x|xs]; cbn.
  - destruct x; run; cbn; try apply IH; congruence.
  - run. apply IH.
Qed.

Lemma coords_as_dict_not_Exception (data : pyval) (m : message) :
  coords_as_dict data <> inl (Exception m).
Proof.
  destruct data; cbn; try congruence. apply coords_as_dict_loop_not_Exception.
Qed.

Lemma minimum_coords_loop_not_Exception found items mi mm (m : message) :
  minimum_coords_loop found items mi mm <> inl (Exception m).
Proof.
  revert mi mm. induction items as [|[k v] items IH]; intros mi mm; cbn; [congruence|].
  destruct (dict_get found k); [apply IH | congruence].
Qed.

Lemma expected_parts_not_Exception expected names (m : message) :
  expected_parts expected names <> inl (Exception m).
Proof.
  induction names as [|c names IH]; cbn; [congruence|].
  destruct (dict_get expected c); [|congruence].
  run. destruct (expected_parts expected names); [exact IH | congruence].
Qed.

(** ** Empty expectations *)

Lemma _match_dims_exactly_keeps_self (data : pyval) (h : heap) :
  self (snd (_match_dims_exactly data h)) = self h.
Proof. unfold _match_dims_exactly, _log_or_raise; run. case_all; reflexivity. Qed.

Lemma _match_minimum_dims_keeps_self (data : pyval) (h : heap) :
  self (snd (_match_minimum_dims data h)) = self h.
Proof. unfold _match_minimum_dims, _log_or_raise; run. case_all; reflexivity. Qed.

Lemma _match_dims_exactly_skip (data : pyval) (h : heap) :
  _expected_dims (self h) = Concrete [] ->
  _match_dims_exactly data h = (inr tt, h).
Proof. intros He. unfold _match_dims_exactly; run. rewrite He. reflexivity. Qed.

Lemma _match_minimum_dims_skip (data : pyval) (h : heap) :
  _expected_dims (self h) = Concrete [] ->
  _match_minimum_dims data h = (inr tt, h).
Proof. intros He. unfold _match_minimum_dims; run. rewrite He. reflexivity. Qed.

Lemma _match_coords_exactly_skip (data : pyval) (h : heap) :
  _expected_coords (self h) = Concrete [] ->
  _match_coords_exactly data h = (inr tt, h).
Proof. intros He. unfold _match_coords_exactly; run. rewrite He. reflexivity. Qed.

Lemma _match_minimum_coords_skip (data : pyval) (h : heap) :
  _expected_coords (self h) = Concrete [] ->
  _match_minimum_coords data h = (inr tt, h).
Proof. intros He. unfold _match_minimum_coords; run. rewrite He. reflexivity. Qed.

(** C5.  With an empty [expected_dims] the dimension check returns at once,
    in EXACT and in MINIMUM mode: it neither raises nor logs and does not
    look at its argument; likewise the coordinate check with an empty
    [expected_coords].  Inside [validate] such a check can be left out,
    whatever the two match types are. *)
Theorem C5_empty_expectation_skips_check (s : Schema) (data : pyval) (lg : list message) :
  (_expected_dims s = Concrete [] ->
     _match_dims_exactly data (mkHeap s lg) = (inr tt, mkHeap s lg)
     /\ _match_minimum_dims data (mkHeap s lg) = (inr tt, mkHeap s lg)
     /\ validate data (mkHeap s lg)
        = ((if String.eqb (_coord_match_type s) "exact"
            then _match_coords_exactly data
            else _match_minimum_coords data);;
           (if negb (_nan_values_allowed s)
            then _ensure_no_nan_values data
            else mret tt);;
           _ensure_values_above_minimum data;;
           _ensure_values_below_maximum data) (mkHeap s lg))
  /\ (_expected_coords s = Concrete [] ->
        _match_coords_exactly data (mkHeap s lg) = (inr tt, mkHeap s lg)
        /\ _match_minimum_coords data (mkHeap s lg) = (inr tt, mkHeap s lg)
        /\ validate data (mkHeap s lg)
           = ((if String.eqb (_dim_match_type s) EXACT_MATCH_TYPE
               then _match_dims_exactly data
               else _match_minimum_dims data);;
              (if negb (_nan_values_allowed s)
               then _ensure_no_nan_values data
               else mret tt);;
              _ensure_values_above_minimum data;;
              _ensure_values_below_maximum data) (mkHeap s lg)).
Proof.
  split; intros He.
  - split; [apply _match_dims_exactly_skip; exact He|].
    split; [apply _match_minimum_dims_skip; exact He|].
    unfold validate. rewrite get_self_run. cbn [self]. rewrite bind_run.
    destruct (String.eqb (_dim_match_type s) EXACT_MATCH_TYPE).
    + rewrite _match_dims_exactly_skip by exact He. reflexivity.
    + rewrite _match_minimum_dims_skip by exact He. reflexivity.
  - split; [apply _match_coords_exactly_skip; exact He|].
    split; [apply _match_minimum_coords_skip; exact He|].
    unfold validate. rewrite get_self_run. cbn [self].
    set (dims_step := if String.eqb (_dim_match_type s) EXACT_MATCH_TYPE
                      then _match_dims_exactly data else _match_minimum_dims data).
    assert (Hself : self (snd (dims_step (mkHeap s lg))) = s).
    { subst dims_step. destruct (String.eqb (_dim_match_type s) EXACT_MATCH_TYPE).
      - apply (_match_dims_exactly_keeps_self data (mkHeap s lg)).
      - apply (_match_minimum_dims_keeps_self data (mkHeap s lg)). }
    rewrite !(bind_run dims_step).
    destruct (dims_step (mkHeap s lg)) as [[e|[]] h']; [reflexivity|].
    cbn in Hself. rewrite bind_run.
    assert (He' : _expected_coords (self h') = Concrete []) by (rewrite Hself; exact He).
    destruct (String.eqb (_coord_match_type s) "exact").
    + rewrite _match_coords_exactly_skip by exact He'. reflexivity.
    + rewrite _match_minimum_coords_skip by exact He'. reflexivity.
Qed.

Lemma C5_empty_expectation_skips_check_witness :
  let s := schema_of [] "minimum" [] "exact" FNegInf FPosInf true in
  let data := VArray (foo_bar_array 1) in
  _match_minimum_dims data (mkHeap s []) = (inr tt, mkHeap s [])
  /\ _match_coords_exactly data (mkHeap s []) = (inr tt, mkHeap s []).
Proof.
  cbv zeta.
  destruct (C5_empty_expectation_skips_check
              (schema_of [] "minimum" [] "exact" FNegInf FPosInf true)
              (VArray (foo_bar_array 1)) []) as [Hd Hc].
  split.
  - apply Hd. reflexivity.
  - apply Hc. reflexivity.
Defined.

(** ** Resolution *)

(** C6.  On a schema whose expectation is concrete, resolving with any
    keyword arguments changes nothing.  A callback is replaced by what it
    returns on the keyword arguments given; once that is a concrete
    collection, a second resolution with other keyword arguments changes
    nothing more. *)
Theorem C6_resolution_is_one_way
    (s : Schema) (lg : list message) (kwargs kwargs' : gmap string pyval) :
  (forall l, _expected_dims s = Concrete l ->
     resolve_expected_dims kwargs (mkHeap s lg) = (inr tt, mkHeap s lg))
  /\ (forall c, _expected_coords s = Concrete c ->
        resolve_expected_coords kwargs (mkHeap s lg) = (inr tt, mkHeap s lg))
  /\ (forall f v, _expected_dims s = Dynamic f -> f kwargs = inr v ->
        resolve_expected_dims kwargs (mkHeap s lg)
        = (inr tt, mkHeap (with_expected_dims s v) lg))
  /\ (forall f v, _expected_coords s = Dynamic f -> f kwargs = inr v ->
        resolve_expected_coords kwargs (mkHeap s lg)
        = (inr tt, mkHeap (with_expected_coords s v) lg))
  /\ (forall f l, _expected_dims s = Dynamic f -> f kwargs = inr (Concrete l) ->
        (resolve_expected_dims kwargs;; resolve_expected_dims kwargs') (mkHeap s lg)
        = (inr tt, mkHeap (with_expected_dims s (Concrete l)) lg))
  /\ (forall f c, _expected_coords s = Dynamic f -> f kwargs = inr (Concrete c) ->
        (resolve_expected_coords kwargs;; resolve_expected_coords kwargs') (mkHeap s lg)
        = (inr tt, mkHeap (with_expected_coords s (Concrete c)) lg)).
Proof.
  repeat split.
  - intros l H. unfold resolve_expected_dims; run. rewrite H. reflexivity.
  - intros c H. unfold resolve_expected_coords; run. rewrite H. reflexivity.
  - intros f v H Hf. unfold resolve_expected_dims; run. rewrite H, Hf. reflexivity.
  - intros f v H Hf. unfold resolve_expected_coords; run. rewrite H, Hf. reflexivity.
  - intros f l H Hf. unfold resolve_expected_dims; run. rewrite H, Hf. reflexivity.
  - intros f c H Hf. unfold resolve_expected_coords; run. rewrite H, Hf. reflexivity.
Qed.

Lemma C6_resolution_is_one_way_witness :
  let round6 : gmap string pyval := {[ "gbd_round_id" := VInt 6 ]} in
  let round5 : gmap string pyval := {[ "gbd_round_id" := VInt 5 ]} in
  let fixed := schema_of ["foo"; "bar"] "exact" [("foo", [LInt 1; LInt 2])] "exact"
                         FNegInf FPosInf true in
  resolve_expected_dims round5 (mkHeap fixed []) = (inr tt, mkHeap fixed [])
  /\ resolve_expected_coords round5 (mkHeap fixed []) = (inr tt, mkHeap fixed [])
  /\ (resolve_expected_dims round6;; resolve_expected_dims round5) (mkHeap dynamic_schema [])
     = (inr tt, mkHeap (with_expected_dims dynamic_schema (Concrete ["foo"])) [])
  /\ (resolve_expected_coords round6;; resolve_expected_coords round5) (mkHeap dynamic_schema [])
     = (inr tt, mkHeap (with_expected_coords dynamic_schema
                          (Concrete [("foo", [LInt 1; LInt 2])])) []).
Proof.
  cbv zeta.
  destruct (C6_resolution_is_one_way
              (schema_of ["foo"; "bar"] "exact" [("foo", [LInt 1; LInt 2])] "exact"
                         FNegInf FPosInf true)
              [] {[ "gbd_round_id" := VInt 5 ]} {[ "gbd_round_id" := VInt 5 ]})
    as (Hd & Hc & _).
  destruct (C6_resolution_is_one_way dynamic_schema []
              {[ "gbd_round_id" := VInt 6 ]} {[ "gbd_round_id" := VInt 5 ]})
    as (_ & _ & _ & _ & Hdd & Hcc).
  split; [apply (Hd ["foo"; "bar"]); reflexivity|].
  split; [apply (Hc [("foo", [LInt 1; LInt 2])]); reflexivity|].
  split.
  - apply (Hdd get_main_schema_dims); reflexivity.
  - apply (Hcc get_main_schema_coords); reflexivity.
Defined.

(** ** The input decorator *)

(** C7.  The wrapper of [check_input] resolves the dimensions, then the
    coordinates, from the keyword arguments of the call; an exception of
    either callback ends the call.  It then reads the keyword argument
    [arg_name], ending with [KeyError] when there is none, and validates it;
    an exception of [validate] ends the call.  Only then is the wrapped
    function run, on the arguments of the call, and its outcome is the
    outcome of the call. *)
Theorem C7_check_input_sequence
    (arg_name : string) (func : callable)
    (args : list pyval) (kwargs : gmap string pyval) (h : heap) :
  check_input arg_name func args kwargs h =
  match resolve_expected_dims kwargs h with
  | (inl e, h1) => (inl e, h1)
  | (inr _, h1) =>
      match resolve_expected_coords kwargs h1 with
      | (inl e, h2) => (inl e, h2)
      | (inr _, h2) =>
          match kwargs !! arg_name with
          | None => (inl (KeyError arg_name), h2)
          | Some arg =>
              match validate arg h2 with
              | (inl e, h3) => (inl e, h3)
              | (inr _, h3) => func args kwargs h3
              end
          end
      end
  end.
Proof.
  unfold check_input. rewrite bind_run.
  destruct (resolve_expected_dims kwargs h) as [[e|[]] h1]; [reflexivity|].
  rewrite bind_run.
  destruct (resolve_expected_coords kwargs h1) as [[e|[]] h2]; [reflexivity|].
  rewrite bind_run. unfold subscript.
  destruct (kwargs !! arg_name) as [arg|]; [|reflexivity].
  run. destruct (validate arg h2) as [[e|[]] h3]; reflexivity.
Qed.

(** C10.  When the keyword arguments of a call have no [arg_name], the
    wrapper of [check_input] runs the two resolution steps and then raises
    the [KeyError]; the wrapped function plays no part in the outcome.  When
    both expectations are callbacks that return on these keyword arguments,
    the call ends with the [KeyError] on a schema that holds the two returned
    values. *)
Theorem C10_missing_argument_after_resolution
    (arg_name : string) (func : callable)
    (args : list pyval) (kwargs : gmap string pyval) (h : heap) :
  kwargs !! arg_name = None ->
  check_input arg_name func args kwargs h
  = (resolve_expected_dims kwargs;;
     resolve_expected_coords kwargs;;
     raise (KeyError arg_name)) h
  /\ (forall fd fc vd vc,
        _expected_dims (self h) = Dynamic fd -> fd kwargs = inr vd ->
        _expected_coords (self h) = Dynamic fc -> fc kwargs = inr vc ->
        check_input arg_name func args kwargs h
        = (inl (KeyError arg_name),
           mkHeap (with_expected_coords (with_expected_dims (self h) vd) vc) (log h))).
Proof.
  intros Hk. split.
  - unfold check_input, subscript. rewrite Hk. reflexivity.
  - intros fd fc vd vc Hd Hfd Hc Hfc.
    unfold check_input, subscript, resolve_expected_dims, resolve_expected_coords.
    rewrite Hk. run. rewrite Hd, Hfd. cbn. rewrite Hc, Hfc. reflexivity.
Qed.

Lemma C10_missing_argument_after_resolution_witness :
  let kwargs : gmap string pyval :=
    {[ "gbd_round_id" := VInt 6; "bar" := VStr "something" ]} in
  check_input "foo" return_bar [VArray (foo_bar_array 1)] kwargs (mkHeap dynamic_schema [])
  = (inl (KeyError "foo"),
     mkHeap (with_expected_coords
               (with_expected_dims dynamic_schema (Concrete ["foo"]))
               (Concrete [("foo", [LInt 1; LInt 2])])) []).
Proof.
  cbv zeta.
  destruct (C10_missing_argument_after_resolution "foo" return_bar
              [VArray (foo_bar_array 1)]
              {[ "gbd_round_id" := VInt 6; "bar" := VStr "something" ]}
              (mkHeap dynamic_schema [])) as [_ H].
  - reflexivity.
  - apply (H get_main_schema_dims get_main_schema_coords); reflexivity.
Defined.

(** ** What the violation messages show *)

Lemma dict_get_In {V} (d : dict V) (k : string) (v : V) :
  dict_get d k = Some v -> In (k, v) d.
Proof.
  induction d as [|[k' v'] d IH]; cbn; [discriminate|].
  destruct (String.eqb k k') eqn:Hk.
  - apply String.eqb_eq in Hk. intros [= ->]. left. congruence.
  - intros H. right. apply IH. exact H.
Qed.

Lemma dict_get_str_in {V} (d : dict V) (k : string) (v : V) :
  dict_get d k = Some v -> str_in k (dict_keys d) = true.
Proof.
  intros H. apply str_in_self. apply dict_get_In in H.
  unfold dict_keys. apply in_map_iff. exists (k, v). auto.
Qed.

(** When the loop of [_match_minimum_coords] finishes, it has recorded no
    missing coordinate, and every coordinate it recorded as mismatching is
    one the array has. *)
Lemma minimum_coords_loop_inr found items mi mm mi' mm' :
  minimum_coords_loop found items mi mm = inr (mi', mm') ->
  mi' = mi /\
  forall c, In c mm' -> In c mm \/ exists fv, dict_get found c = Some fv.
Proof.
  revert mi mm. induction items as [|[k ev] items IH]; intros mi mm; cbn.
  - intros [= <- <-]. auto.
  - destruct (dict_get found k) as [fv|] eqn:Hk; [|discriminate].
    rewrite (dict_get_str_in _ _ _ Hk). cbn. intros H.
    apply IH in H. destruct H as [Hmi Hmm]. split; [exact Hmi|].
    intros c Hc. destruct (Hmm c Hc) as [Hin|Hex]; [|right; exact Hex].
    destruct (issuperset fv ev); cbn in Hin; [left; exact Hin|].
    apply in_app_or in Hin. destruct Hin as [Hin|[<-|[]]]; [left; exact Hin|].
    right. exists fv. exact Hk.
Qed.

Lemma expected_parts_inr expected names ps :
  expected_parts expected names = inr ps ->
  forall c, In c names ->
    exists ev, dict_get expected c = Some ev /\
               In [Interp (OStr c); Lit ": "; Interp (OLabels ev)] ps.
Proof.
  revert ps. induction names as [|n names IH]; intros ps; cbn.
  - intros _ c [].
  - destruct (dict_get expected n) as [ev|] eqn:Hn; [|discriminate].
    run. destruct (expected_parts expected names) as [e|ps']; [discriminate|].
    intros [= <-] c [<-|Hc].
    + exists ev. split; [exact Hn | left; reflexivity].
    + destruct (IH ps' eq_refl c Hc) as [ev' [H1 H2]].
      exists ev'. split; [exact H1 | right; exact H2].
Qed.

Lemma found_parts_In found names c fv :
  dict_get found c = Some fv -> In c names ->
  In [Interp (OStr c); Lit ": "; Interp (OLabels fv)] (found_parts found names).
Proof.
  intros Hg Hc. unfold found_parts.
  apply in_map_iff. exists (c, fv). split; [reflexivity|].
  apply filter_In. split; [apply dict_get_In; exact Hg|].
  cbn. apply str_in_self. exact Hc.
Qed.

Lemma join_In (sep : string) (parts : list message) (part : message) (p : piece) :
  In part parts -> In p part -> In p (join sep parts).
Proof.
  induction parts as [|q parts IH]; [intros []|].
  intros Hpart Hp. cbn [join].
  destruct parts as [|q' parts'].
  - destruct Hpart as [<-|[]]. exact Hp.
  - apply in_or_app. destruct Hpart as [<-|Hpart]; [left; exact Hp|].
    right. right. apply IH; assumption.
Qed.

Section Messages.

Variable s : Schema.
Variable d : DataArray.

Lemma emits_match_dims_exactly : emits s (violation_message s d) (_match_dims_exactly (VArray d)).
Proof.
  unfold _match_dims_exactly. apply emits_get_self.
  apply emits_collection_bind. intros e He.
  destruct (Nat.eqb (length e) 0); [apply emits_ret|].
  apply emits_lift_bind; [intros m; apply attr_not_Exception|].
  intros found [= <-].
  destruct (negb (strs_eqb (dims d) e)); [|apply emits_ret].
  apply emits_log_or_raise. left. left. exists e.
  unfold names. cbn. auto 10.
Qed.

Lemma emits_match_minimum_dims : emits s (violation_message s d) (_match_minimum_dims (VArray d)).
Proof.
  unfold _match_minimum_dims. apply emits_get_self.
  apply emits_collection_bind. intros e He.
  destruct (Nat.eqb (length e) 0); [apply emits_ret|].
  rewrite missing_dims_nil. cbn. apply emits_ret.
Qed.

Lemma emits_match_coords_exactly : emits s (violation_message s d) (_match_coords_exactly (VArray d)).
Proof.
  unfold _match_coords_exactly. apply emits_get_self.
  apply emits_collection_bind. intros e He.
  destruct (Nat.eqb (length e) 0); [apply emits_ret|].
  apply emits_lift_bind; [intros m; apply coords_as_dict_not_Exception|].
  intros f Hf.
  destruct (negb (dict_items_eqb e f)); [|apply emits_ret].
  apply emits_log_or_raise. left. right. left. exists e, f.
  unfold names. cbn. auto 10.
Qed.

Lemma emits_match_minimum_coords : emits s (violation_message s d) (_match_minimum_coords (VArray d)).
Proof.
  unfold _match_minimum_coords. apply emits_get_self.
  apply emits_collection_bind. intros e He.
  destruct (Nat.eqb (length e) 0); [apply emits_ret|].
  apply emits_lift_bind; [intros m; apply coords_as_dict_not_Exception|].
  intros f Hf.
  apply emits_lift_bind; [intros m; apply minimum_coords_loop_not_Exception|].
  intros [mi mm] Hloop. cbn [fst snd].
  apply minimum_coords_loop_inr in Hloop. destruct Hloop as [-> Hmm].
  apply emits_bind; [cbn; apply emits_ret|]. intros _.
  destruct (negb (Nat.eqb (length mm) 0)); [|apply emits_ret].
  apply emits_lift_bind; [intros m; apply expected_parts_not_Exception|].
  intros eparts Heparts.
  apply emits_log_or_raise. left. right. right. exists e, f, mm.
  split; [exact He|]. split; [exact Hf|].
  split; [unfold names; cbn; auto|].
  intros c Hc.
  destruct (expected_parts_inr _ _ _ Heparts c Hc) as [ev [Hev Hin]].
  destruct (Hmm c Hc) as [[]|[fv Hfv]].
  exists ev, fv. split; [exact Hev|]. split; [exact Hfv|].
  unfold names. split.
  - apply in_or_app. right. apply in_or_app. left.
    apply (join_In _ _ _ _ Hin). cbn. auto.
  - do 3 (apply in_or_app; right). apply in_or_app. left.
    apply (join_In _ _ _ _ (found_parts_In _ _ _ _ Hfv Hc)). cbn. auto.
Qed.

Lemma emits_ensure_no_nan_values :
  _nan_values_allowed s = false -> emits s (violation_message s d) (_ensure_no_nan_values (VArray d)).
Proof.
  intros Hnan. unfold _ensure_no_nan_values.
  apply emits_lift_bind; [intros m; apply attr_not_Exception|].
  intros vals [= <-].
  destruct (existsb is_nan (values d)) eqn:Hex; [|apply emits_ret].
  apply emits_log_or_raise. right. right. unfold fixed_nan_text. auto.
Qed.

Lemma emits_ensure_values_above_minimum :
  emits s (violation_message s d) (_ensure_values_above_minimum (VArray d)).
Proof.
  unfold _ensure_values_above_minimum. apply emits_get_self.
  apply emits_lift_bind; [intros m; apply attr_not_Exception|].
  intros vals [= <-].
  destruct (existsb _ (values d)) eqn:Hex; [|apply emits_ret].
  apply emits_log_or_raise. right. left. left. auto.
Qed.

Lemma emits_ensure_values_below_maximum :
  emits s (violation_message s d) (_ensure_values_below_maximum (VArray d)).
Proof.
  unfold _ensure_values_below_maximum. apply emits_get_self.
  apply emits_lift_bind; [intros m; apply attr_not_Exception|].
  intros vals [= <-].
  destruct (existsb _ (values d)) eqn:Hex; [|apply emits_ret].
  apply emits_log_or_raise. right. left. right. auto.
Qed.

Lemma emits_validate : emits s (violation_message s d) (validate (VArray d)).
Proof.
  unfold validate. apply emits_get_self.
  apply emits_bind.
  { destruct (String.eqb _ _);
      [apply emits_match_dims_exactly | apply emits_match_minimum_dims]. }
  intros _. apply emits_bind.
  { destruct (String.eqb _ _);
      [apply emits_match_coords_exactly | apply emits_match_minimum_coords]. }
  intros _. apply emits_bind.
  { destruct (_nan_values_allowed s) eqn:Hnan; cbn;
      [apply emits_ret | apply emits_ensure_no_nan_values; exact Hnan]. }
  intros _. apply emits_bind; [apply emits_ensure_values_above_minimum|].
  intros _. apply emits_ensure_values_below_maximum.
Qed.

End Messages.

(** C8, as stated, fails.  An array filled with -101 is refused under the
    minimum -100 with a message that interpolates the bound alone: no
    element of the array appears in it.  An array holding a NaN is refused,
    when NaN values are not allowed, with a text that interpolates
    nothing. *)
Lemma C8_bound_and_nan_messages_omit_found_values :
  let s := schema_of ["foo"; "bar"] "exact"
             [("foo", [LInt 1; LInt 2]); ("bar", [LInt 3; LInt 4])] "exact"
             (num (-100)) (num 100) true in
  let d := foo_bar_array (-101) in
  let s' := {| _expected_dims := Concrete []; _expected_coords := Concrete [];
               _dim_match_type := "exact"; _coord_match_type := "exact";
               _min_value := FNegInf; _max_value := FPosInf;
               _nan_values_allowed := false; _raise_errors := true |} in
  let d' := {| dims := ["foo"]; coords := [("foo", Array1d [LInt 1; LInt 2])];
               values := [num 1; FNaN] |} in
  validate (VArray d) (mkHeap s []) = (inl (Exception (below_minimum_message s)), mkHeap s [])
  /\ ~ names_some_value d (below_minimum_message s)
  /\ validate (VArray d') (mkHeap s' []) = (inl (Exception nan_message), mkHeap s' [])
  /\ (forall o, ~ names nan_message o).
Proof.
  cbv zeta. split; [vm_compute; reflexivity|].
  split.
  { intros [x [Hx Hn]]. unfold names in Hn. cbn in Hx, Hn.
    destruct Hn as [Hn|[Hn|[Hn|[]]]]; try discriminate.
    injection Hn as <-.
    repeat (destruct Hx as [Hx|Hx]; [discriminate|]). exact Hx. }
  split; [vm_compute; reflexivity|].
  intros o [Ho|[]]. discriminate.
Qed.

(** C8, amended.  Every message that [validate] logs or raises on an array is
    of one of three kinds.  A dimension or coordinate message interpolates
    the expectation and what the array has: the expected list and the
    array's dimensions; or the expected and the extracted coordinate
    mappings; or, for each mismatching coordinate, its expected and its
    found label list.  A bound message is the fixed text around the
    configured minimum or maximum, emitted when some element is beyond it.
    The NaN message is a fixed text, emitted when NaN values are not allowed
    and one is present. *)
Theorem C8_violation_messages (s : Schema) (d : DataArray) :
  Forall (violation_message s d) (emitted (validate (VArray d) (mkHeap s []))).
Proof.
  apply (emits_validate s d (mkHeap s [])); [reflexivity | constructor].
Qed.

(** ** Raising mode against logging mode *)

Section Coupled.

Variable s : Schema.

Lemma coupled_lift {A} (r : exn + A) :
  (forall m, r <> inl (Exception m)) -> coupled s (lift r) (lift r).
Proof.
  intros Hr lg0 lg. exists r, []. rewrite app_nil_r. auto.
Qed.

Lemma coupled_ret {A} (a : A) : coupled s (mret a) (mret a).
Proof. apply (coupled_lift (inr a)). congruence. Qed.

Lemma coupled_bind {A B} (c1 c2 : M A) (k1 k2 : A -> M B) :
  coupled s c1 c2 -> (forall a, coupled s (k1 a) (k2 a)) ->
  coupled s (c1 ≫= k1) (c2 ≫= k2).
Proof.
  intros Hc Hk lg0 lg.
  destruct (Hc lg0 lg) as (r & new1 & H1 & Hr & H2).
  rewrite !bind_run, H1, H2.
  destruct r as [e|a].
  - exists (inl e), new1. split; [reflexivity|].
    split; [intros m Hm; apply (Hr m); congruence|].
    destruct new1; reflexivity.
  - destruct new1 as [|m new1].
    + rewrite app_nil_r.
      destruct (Hk a lg0 lg) as (r2 & new2 & K1 & Kr & K2).
      exists r2, new2. auto.
    + destruct (Hk a (lg0 ++ m :: new1) lg) as (r2 & new2 & K1 & Kr & _).
      exists r2, ((m :: new1) ++ new2). rewrite K1, app_assoc. auto.
Qed.

Lemma coupled_get_self {B} (k1 k2 : Schema -> M B) :
  coupled s (k1 (with_raise_errors s false)) (k2 (with_raise_errors s true)) ->
  coupled s (get_self ≫= k1) (get_self ≫= k2).
Proof. intros Hk lg0 lg. rewrite !get_self_run. apply Hk. Qed.

Lemma coupled_lift_bind {A B} (r : exn + A) (k1 k2 : A -> M B) :
  (forall m, r <> inl (Exception m)) ->
  (forall a, r = inr a -> coupled s (k1 a) (k2 a)) ->
  coupled s (lift r ≫= k1) (lift r ≫= k2).
Proof.
  intros Hr Hk. destruct r as [e|a].
  - apply (@coupled_lift B (inl e)). intros m Hm. apply (Hr m). congruence.
  - apply (Hk a). reflexivity.
Qed.

Lemma coupled_collection_bind {A B} (e : expectation A) (k1 k2 : A -> M B) :
  (forall a, e = Concrete a -> coupled s (k1 a) (k2 a)) ->
  coupled s (collection e ≫= k1) (collection e ≫= k2).
Proof.
  intros Hk. destruct e as [a|f].
  - apply (Hk a). reflexivity.
  - apply (@coupled_lift B (inl (TypeError "object of type 'function' has no len()"))).
    congruence.
Qed.

Lemma coupled_log_or_raise (msg : message) :
  coupled s (_log_or_raise msg) (_log_or_raise msg).
Proof.
  intros lg0 lg. exists (inr tt), [msg]. rewrite !_log_or_raise_run. cbn.
  split; [reflexivity|]. split; [congruence | reflexivity].
Qed.

Variable d : DataArray.

Lemma coupled_match_dims_exactly :
  coupled s (_match_dims_exactly (VArray d)) (_match_dims_exactly (VArray d)).
Proof.
  unfold _match_dims_exactly. apply coupled_get_self. fields.
  apply coupled_collection_bind. intros e _.
  destruct (Nat.eqb (length e) 0); [apply coupled_ret|].
  apply coupled_lift_bind; [intros m; apply attr_not_Exception|]. intros found _.
  destruct (negb (strs_eqb found e)); [apply coupled_log_or_raise | apply coupled_ret].
Qed.

Lemma coupled_match_minimum_dims :
  coupled s (_match_minimum_dims (VArray d)) (_match_minimum_dims (VArray d)).
Proof.
  unfold _match_minimum_dims. apply coupled_get_self. fields.
  apply coupled_collection_bind. intros e _.
  destruct (Nat.eqb (length e) 0); [apply coupled_ret|].
  rewrite missing_dims_nil. cbn. apply coupled_ret.
Qed.

Lemma coupled_match_coords_exactly :
  coupled s (_match_coords_exactly (VArray d)) (_match_coords_exactly (VArray d)).
Proof.
  unfold _match_coords_exactly. apply coupled_get_self. fields.
  apply coupled_collection_bind. intros e _.
  destruct (Nat.eqb (length e) 0); [apply coupled_ret|].
  apply coupled_lift_bind; [intros m; apply coords_as_dict_not_Exception|]. intros f _.
  destruct (negb (dict_items_eqb e f)); [apply coupled_log_or_raise | apply coupled_ret].
Qed.

Lemma coupled_match_minimum_coords :
  coupled s (_match_minimum_coords (VArray d)) (_match_minimum_coords (VArray d)).
Proof.
  unfold _match_minimum_coords. apply coupled_get_self. fields.
  apply coupled_collection_bind. intros e _.
  destruct (Nat.eqb (length e) 0); [apply coupled_ret|].
  apply coupled_lift_bind; [intros m; apply coords_as_dict_not_Exception|]. intros f _.
  apply coupled_lift_bind; [intros m; apply minimum_coords_loop_not_Exception|].
  intros acc _. cbv zeta.
  apply coupled_bind.
  { destruct (negb _); [apply coupled_log_or_raise | apply coupled_ret]. }
  intros _. destruct (negb _); [|apply coupled_ret].
  apply coupled_lift_bind; [intros m; apply expected_parts_not_Exception|].
  intros eparts _. apply coupled_log_or_raise.
Qed.

Lemma coupled_ensure_no_nan_values :
  coupled s (_ensure_no_nan_values (VArray d)) (_ensure_no_nan_values (VArray d)).
Proof.
  unfold _ensure_no_nan_values.
  apply coupled_lift_bind; [intros m; apply attr_not_Exception|]. intros vals _.
  destruct (existsb _ _); [apply coupled_log_or_raise | apply coupled_ret].
Qed.

Lemma coupled_ensure_values_above_minimum :
  coupled s (_ensure_values_above_minimum (VArray d))
            (_ensure_values_above_minimum (VArray d)).
Proof.
  unfold _ensure_values_above_minimum. apply coupled_get_self. fields.
  apply coupled_lift_bind; [intros m; apply attr_not_Exception|]. intros vals _.
  destruct (existsb _ _); [apply coupled_log_or_raise | apply coupled_ret].
Qed.

Lemma coupled_ensure_values_below_maximum :
  coupled s (_ensure_values_below_maximum (VArray d))
            (_ensure_values_below_maximum (VArray d)).
Proof.
  unfold _ensure_values_below_maximum. apply coupled_get_self. fields.
  apply coupled_lift_bind; [intros m; apply attr_not_Exception|]. intros vals _.
  destruct (existsb _ _); [apply coupled_log_or_raise | apply coupled_ret].
Qed.

Lemma coupled_validate : coupled s (validate (VArray d)) (validate (VArray d)).
Proof.
  unfold validate. apply coupled_get_self. fields.
  apply coupled_bind.
  { destruct (String.eqb _ _);
      [apply coupled_match_dims_exactly | apply coupled_match_minimum_dims]. }
  intros _. apply coupled_bind.
  { destruct (String.eqb _ _);
      [apply coupled_match_coords_exactly | apply coupled_match_minimum_coords]. }
  intros _. apply coupled_bind.
  { destruct (negb _); [apply coupled_ensure_no_nan_values | apply coupled_ret]. }
  intros _. apply coupled_bind; [apply coupled_ensure_values_above_minimum|].
  intros _. apply coupled_ensure_values_below_maximum.
Qed.

End Coupled.

(** The raise-or-log policy, as far as it holds on every schema and array.
    In logging mode [validate] logs the messages [new] and ends with [r],
    which is never an [Exception] (it is a normal return, or the error of a
    failed lookup or extraction).  In raising mode, on the same schema and
    array, [validate] logs nothing: it raises the first message of [new], or
    ends as the logging run does when [new] is empty. *)
Lemma validate_raise_or_log_policy (s : Schema) (d : DataArray) (lg : list message) :
  exists r new,
    validate (VArray d) (mkHeap (with_raise_errors s false) [])
    = (r, mkHeap (with_raise_errors s false) new)
    /\ (forall m, r <> inl (Exception m))
    /\ validate (VArray d) (mkHeap (with_raise_errors s true) lg)
       = match new with
         | [] => (r, mkHeap (with_raise_errors s true) lg)
         | m :: _ => (inl (Exception m), mkHeap (with_raise_errors s true) lg)
         end.
Proof. apply (coupled_validate s d [] lg). Qed.

(** ** The scenarios of the demos and the tests *)

(** [demo_check_input.py]: matching dimensions, coordinates and values. *)
Example demo_check_input_passes :
  let s := schema_of ["foo"; "bar"] "exact"
             [("foo", [LInt 1; LInt 2]); ("bar", [LInt 3; LInt 4])] "exact"
             (num (-100)) (num 100) true in
  let input := VArray (foo_bar_array 1) in
  let kwargs : gmap string pyval := {[ "foo" := input; "bar" := input ]} in
  check_input "bar" return_bar [] kwargs (mkHeap s []) = (inr input, mkHeap s []).
Proof. vm_compute. reflexivity. Qed.

(** The same schema accepts the bounds themselves and refuses dimensions in
    another order. *)
Example bounds_are_inclusive_and_dims_ordered :
  let s := schema_of ["foo"; "bar"] "exact" [] "exact" (num 1) (num 1) true in
  validate (VArray (foo_bar_array 1)) (mkHeap s []) = (inr tt, mkHeap s [])
  /\ exists msg,
       validate (VArray {| dims := ["bar"; "foo"]; coords := []; values := [num 1] |})
                (mkHeap s [])
       = (inl (Exception msg), mkHeap s [])
       /\ names msg (OStrList ["foo"; "bar"]) /\ names msg (OStrTuple ["bar"; "foo"]).
Proof.
  cbv zeta. split; [vm_compute; reflexivity|].
  eexists. split; [vm_compute; reflexivity|].
  unfold names. cbn. auto 10.
Qed.

(** [test_minimum_coord_error]: the found labels of [sex_id] do not contain
    the expected ones. *)
Example test_minimum_coord_error :
  let s := schema_of [] "exact"
             [("age_group_id", [LInt 1; LInt 2]); ("sex_id", [LInt 2; LInt 3])] "minimum"
             FNegInf FPosInf true in
  let foo := {| dims := ["age_group_id"; "sex_id"];
                coords := [("age_group_id", Array1d [LInt 1; LInt 2]);
                           ("sex_id", Array1d [LInt 2])];
                values := [num 1; num 1] |} in
  validate (VArray foo) (mkHeap s [])
  = (inl (Exception
            [Lit "Data has mismatching coordinate values for coords: ";
             Interp (OStrList ["sex_id"]); Lit ". Expected: ";
             Interp (OStr "sex_id"); Lit ": "; Interp (OLabels [LInt 2; LInt 3]);
             Lit ". Found: ";
             Interp (OStr "sex_id"); Lit ": "; Interp (OLabels [LInt 2]); Lit "."]),
     mkHeap s []).
Proof. vm_compute. reflexivity. Qed.

(** MINIMUM coordinates are compared as sets. *)
Example minimum_coords_are_sets :
  issuperset [LInt 1; LInt 2; LInt 3] [LInt 2; LInt 1] = true
  /\ issuperset [LInt 2] [LInt 2; LInt 3] = false.
Proof. split; reflexivity. Qed.

(** A callback that does not find its keyword raises its own error, and the
    schema stays unresolved. *)
Example dynamic_schema_without_context :
  exists msg,
    check_input "foo" return_bar []
                {[ "foo" := VArray (foo_bar_array 1) ]} (mkHeap dynamic_schema [])
    = (inl (Exception msg), mkHeap dynamic_schema [])
    /\ msg = [Lit "Could not get coordinates, ``gbd_round_id`` parameter not found."].
Proof. eexists. split; [vm_compute; reflexivity | reflexivity]. Qed.

(** ** Further properties: the policy, the store, the output decorator *)

(** X1.  Logging and raising mode on one schema and one array, from any two
    logs.  The logging run appends some messages to its log and does not end
    with an [Exception]; the raising run leaves its log alone and raises the
    first message the logging run appends, or ends as the logging run does
    when that run appends nothing. *)
Theorem X1_raising_mode_raises_first_logged
    (s : Schema) (d : DataArray) (lg0 lg : list message) :
  exists r new,
    validate (VArray d) (mkHeap (with_raise_errors s false) lg0)
    = (r, mkHeap (with_raise_errors s false) (lg0 ++ new))
    /\ (forall m, r <> inl (Exception m))
    /\ validate (VArray d) (mkHeap (with_raise_errors s true) lg)
       = match new with
         | [] => (r, mkHeap (with_raise_errors s true) lg)
         | m :: _ => (inl (Exception m), mkHeap (with_raise_errors s true) lg)
         end.
Proof. apply coupled_validate. Qed.

(** X2.  [validate] never assigns to the schema and never drops a warning:
    the store it ends with has the same schema and a log that extends the
    initial one, by nothing at all in raising mode. *)
Theorem X2_validate_keeps_schema_and_extends_log
    (s : Schema) (d : DataArray) (lg : list message) :
  exists r new,
    validate (VArray d) (mkHeap s lg) = (r, mkHeap s (lg ++ new))
    /\ (_raise_errors s = true -> new = []).
Proof.
  destruct (coupled_validate s d lg lg) as (r & new & Hlog & _ & Hraise).
  destruct s as [ed ec dm cm mn mx nan [|]]; cbn [with_raise_errors] in *;
    cbn [_expected_dims _expected_coords _dim_match_type _coord_match_type
         _min_value _max_value _nan_values_allowed _raise_errors] in *.
  - destruct new as [|m new].
    + exists r, []. rewrite app_nil_r. auto.
    + exists (inl (Exception m)), []. rewrite app_nil_r. auto.
  - exists r, new. split; [exact Hlog | discriminate].
Qed.


(** ** Further properties: construction and the dimension check *)

Lemma strs_eqb_eq (xs ys : list string) : strs_eqb xs ys = true <-> xs = ys.
Proof.
  revert ys. induction xs as [|x xs IH]; intros [|y ys]; cbn; try easy.
  rewrite andb_true_iff, String.eqb_eq, IH. split.
  - intros [-> ->]. reflexivity.
  - intros [= -> ->]. auto.
Qed.

(** X4.  With a non-empty expected list, the EXACT dimension check is silent
    exactly when the array's dimension names are that list, name by name and
    in that order; otherwise it reports one message showing both lists. *)
Theorem X4_exact_dims_is_list_equality
    (s : Schema) (d : DataArray) (lg : list message) (expected : list string) :
  _expected_dims s = Concrete expected ->
  expected <> [] ->
  (dims d = expected ->
     _match_dims_exactly (VArray d) (mkHeap s lg) = (inr tt, mkHeap s lg))
  /\ (dims d <> expected ->
        _match_dims_exactly (VArray d) (mkHeap s lg)
        = reported s lg (dims_exact_message expected (dims d))).
Proof.
  intros He Hne.
  assert (Hlen : Nat.eqb (length expected) 0 = false)
    by (destruct expected; [contradiction | reflexivity]).
  split; intros Hd.
  - unfold _match_dims_exactly; run. rewrite He; run. rewrite Hlen. cbn.
    rewrite (proj2 (strs_eqb_eq _ _) Hd). reflexivity.
  - unfold _match_dims_exactly. rewrite get_self_run. cbn [self].
    rewrite He. run. rewrite Hlen. cbn.
    destruct (strs_eqb (dims d) expected) eqn:Heq.
    + apply strs_eqb_eq in Heq. contradiction.
    + cbn. apply _log_or_raise_run.
Qed.

Lemma X4_exact_dims_is_list_equality_witness :
  let s := schema_of ["foo"; "bar"] "exact" [] "exact" FNegInf FPosInf false in
  let swapped := {| dims := ["bar"; "foo"]; coords := []; values := [] |} in
  _match_dims_exactly (VArray (foo_bar_array 1)) (mkHeap s []) = (inr tt, mkHeap s [])
  /\ _match_dims_exactly (VArray swapped) (mkHeap s [])
     = (inr tt, mkHeap s [dims_exact_message ["foo"; "bar"] ["bar"; "foo"]]).
Proof.
  cbv zeta. split.
  - apply (X4_exact_dims_is_list_equality
             (schema_of ["foo"; "bar"] "exact" [] "exact" FNegInf FPosInf false)
             (foo_bar_array 1) [] ["foo"; "bar"]);
      [reflexivity | discriminate | reflexivity].
  - apply (X4_exact_dims_is_list_equality
             (schema_of ["foo"; "bar"] "exact" [] "exact" FNegInf FPosInf false)
             {| dims := ["bar"; "foo"]; coords := []; values := [] |} [] ["foo"; "bar"]);
      [reflexivity | discriminate | discriminate].
Defined.

(** X5.  The constructor returns an instance, holding its arguments as
    given, exactly when [dim_match_type] is one of the two match types; for
    every other string it raises an [Exception] whose message shows the
    string and the valid ones. *)
Theorem X5_init_accepts_the_two_dim_match_types
    (expected_dims : expectation (list string)) (dim_match_type : string)
    (expected_coords : expectation (dict (list label))) (coord_match_type : string)
    (mn mx : fnum) (nan raise_errors : bool) :
  (dim_match_type = "exact" \/ dim_match_type = "minimum" ->
     __init__ expected_dims dim_match_type expected_coords coord_match_type
              mn mx nan raise_errors
     = inr {| _expected_dims := expected_dims;
              _expected_coords := expected_coords;
              _dim_match_type := dim_match_type;
              _coord_match_type := coord_match_type;
              _min_value := mn; _max_value := mx;
              _nan_values_allowed := nan; _raise_errors := raise_errors |})
  /\ (dim_match_type <> "exact" -> dim_match_type <> "minimum" ->
        exists msg,
          __init__ expected_dims dim_match_type expected_coords coord_match_type
                   mn mx nan raise_errors
          = inl (Exception msg)
          /\ names msg (OStr dim_match_type)
          /\ names msg (OStrList ["exact"; "minimum"])).
Proof.
  split.
  - intros [-> | ->]; reflexivity.
  - intros H1 H2. eexists. unfold __init__, str_in, VALID_MATCH_TYPES,
      EXACT_MATCH_TYPE, MINIMUM_MATCH_TYPE. cbn [existsb].
    destruct (String.eqb_spec dim_match_type "exact") as [->|_]; [contradiction|].
    destruct (String.eqb_spec dim_match_type "minimum") as [->|_]; [contradiction|].
    cbn. split; [reflexivity|]. unfold names. cbn. auto 10.
Qed.

Lemma X5_init_accepts_the_two_dim_match_types_witness :
  __init__ (Concrete ["foo"]) "minimum" (Concrete []) "exact" FNegInf FPosInf true true
  = inr {| _expected_dims := Concrete ["foo"];
           _expected_coords := Concrete [];
           _dim_match_type := "minimum";
           _coord_match_type := "exact";
           _min_value := FNegInf; _max_value := FPosInf;
           _nan_values_allowed := true; _raise_errors := true |}
  /\ exists msg,
       __init__ (Concrete ["foo"]) "Exact" (Concrete []) "exact" FNegInf FPosInf true true
       = inl (Exception msg)
       /\ names msg (OStr "Exact") /\ names msg (OStrList ["exact"; "minimum"]).
Proof.
  split.
  - apply (X5_init_accepts_the_two_dim_match_types
             (Concrete ["foo"]) "minimum" (Concrete []) "exact" FNegInf FPosInf true true).
    right. reflexivity.
  - apply (X5_init_accepts_the_two_dim_match_types
             (Concrete ["foo"]) "Exact" (Concrete []) "exact" FNegInf FPosInf true true);
      discriminate.
Defined.

(** ** Further properties: what [validate] does off the main path *)

Lemma flt_FNegInf (v : fnum) : flt v FNegInf = false.
Proof. destruct v; reflexivity. Qed.

Lemma fgt_FPosInf (v : fnum) : fgt v FPosInf = false.
Proof. destruct v; reflexivity. Qed.

Lemma existsb_false {A} (p : A -> bool) (l : list A) :
  (forall x, p x = false) -> existsb p l = false.
Proof. intros Hp. induction l as [|x l IH]; cbn; [reflexivity|]. rewrite Hp, IH. reflexivity. Qed.

(** X6.  The schema built by [Schema()], with every parameter at its
    default, accepts every array: whatever the dimensions, the coordinates
    (scalar ones included) and the elements (NaN and the infinities
    included), [validate] returns without raising or logging. *)
Theorem X6_default_schema_accepts_every_array (d : DataArray) (lg : list message) :
  Schema_defaults = inr default_schema
  /\ validate (VArray d) (mkHeap default_schema lg) = (inr tt, mkHeap default_schema lg).
Proof.
  split; [reflexivity|].
  unfold validate, _match_dims_exactly, _match_coords_exactly,
    _ensure_values_above_minimum, _ensure_values_below_maximum; run. cbn.
  rewrite (existsb_false _ _ flt_FNegInf), (existsb_false _ _ fgt_FPosInf).
  reflexivity.
Qed.

Lemma validate_step_keeps_self (step1 step2 : pyval -> M unit) (b : bool)
    (data : pyval) (h : heap) :
  (forall h, self (snd (step1 data h)) = self h) ->
  (forall h, self (snd (step2 data h)) = self h) ->
  self (snd ((if b then step1 data else step2 data) h)) = self h.
Proof. intros H1 H2. destruct b; auto. Qed.



(** X8.  On a schema whose expectation is still a callback, [validate] never
    returns normally, whatever its argument.  With [expected_dims]
    unresolved it ends at once with a [TypeError], the store untouched; with
    [expected_coords] unresolved it ends with an exception at the coordinate
    check at the latest. *)
Theorem X8_unresolved_schema_does_not_validate
    (s : Schema) (data : pyval) (lg : list message) :
  (forall f, _expected_dims s = Dynamic f ->
     validate data (mkHeap s lg)
     = (inl (TypeError "object of type 'function' has no len()"), mkHeap s lg))
  /\ (forall g, _expected_coords s = Dynamic g ->
        exists e h', validate data (mkHeap s lg) = (inl e, h')).
Proof.
  split.
  - intros f Hf. unfold validate. rewrite get_self_run. cbn [self]. rewrite bind_run.
    destruct (String.eqb (_dim_match_type s) EXACT_MATCH_TYPE).
    + unfold _match_dims_exactly; run. rewrite Hf. reflexivity.
    + unfold _match_minimum_dims; run. rewrite Hf. reflexivity.
  - intros g Hg. unfold validate. rewrite get_self_run. cbn [self].
    set (dims_step := if String.eqb (_dim_match_type s) EXACT_MATCH_TYPE
                      then _match_dims_exactly data else _match_minimum_dims data).
    assert (Hself : self (snd (dims_step (mkHeap s lg))) = s).
    { subst dims_step.
      apply (validate_step_keeps_self _match_dims_exactly _match_minimum_dims).
      - apply _match_dims_exactly_keeps_self.
      - apply _match_minimum_dims_keeps_self. }
    rewrite bind_run.
    destruct (dims_step (mkHeap s lg)) as [[e|[]] h1]; [eauto|].
    cbn in Hself. rewrite bind_run.
    assert (Hc : (if String.eqb (_coord_match_type s) "exact"
                  then _match_coords_exactly data else _match_minimum_coords data) h1
                 = (inl (TypeError "object of type 'function' has no len()"), h1)).
    { destruct (String.eqb (_coord_match_type s) "exact").
      - unfold _match_coords_exactly; run. rewrite Hself, Hg. reflexivity.
      - unfold _match_minimum_coords; run. rewrite Hself, Hg. reflexivity. }
    rewrite Hc. eauto.
Qed.

Lemma X8_unresolved_schema_does_not_validate_witness :
  validate (VArray (foo_bar_array 1)) (mkHeap dynamic_schema [])
  = (inl (TypeError "object of type 'function' has no len()"), mkHeap dynamic_schema []).
Proof.
  apply (X8_unresolved_schema_does_not_validate dynamic_schema
           (VArray (foo_bar_array 1)) [] ) with (f := get_main_schema_dims).
  reflexivity.
Defined.

(** ** Further properties: callbacks that raise *)

(** X9.  An exception of a callback passes through the wrapper of
    [check_input] as it is, and the wrapped function is not run.  When the
    callback of [expected_dims] raises, the store is untouched.  When it
    returns and the callback of [expected_coords] raises, the call fails on a
    schema that is resolved by half: [expected_dims] holds the returned
    value, [expected_coords] is still the callback. *)
Theorem X9_callback_error_passes_through
    (arg_name : string) (func : callable) (args : list pyval)
    (kwargs : gmap string pyval) (s : Schema) (lg : list message) :
  (forall f e, _expected_dims s = Dynamic f -> f kwargs = inl e ->
     check_input arg_name func args kwargs (mkHeap s lg) = (inl e, mkHeap s lg))
  /\ (forall f v g e,
        _expected_dims s = Dynamic f -> f kwargs = inr v ->
        _expected_coords s = Dynamic g -> g kwargs = inl e ->
        check_input arg_name func args kwargs (mkHeap s lg)
        = (inl e, mkHeap (with_expected_dims s v) lg)
        /\ _expected_coords (with_expected_dims s v) = Dynamic g).
Proof.
  split.
  - intros f e Hf He. unfold check_input, resolve_expected_dims; run.
    rewrite Hf, He. reflexivity.
  - intros f v g e Hf Hv Hg He. split; [|exact Hg].
    unfold check_input, resolve_expected_dims, resolve_expected_coords; run.
    rewrite Hf, Hv. cbn. rewrite Hg, He. reflexivity.
Qed.

Lemma X9_callback_error_passes_through_witness :
  let no_round : gmap string pyval := {[ "foo" := VArray (foo_bar_array 1) ]} in
  let half := with_expected_dims dynamic_schema (Dynamic (fun _ => inr (Concrete ["foo"]))) in
  let error := Exception [Lit "Could not get coordinates, ``gbd_round_id`` parameter not found."] in
  check_input "foo" return_bar [] no_round (mkHeap dynamic_schema [])
  = (inl error, mkHeap dynamic_schema [])
  /\ check_input "foo" return_bar [] no_round (mkHeap half [])
     = (inl error, mkHeap (with_expected_dims half (Concrete ["foo"])) []).
Proof.
  cbv zeta. split.
  - apply (X9_callback_error_passes_through "foo" return_bar []
             {[ "foo" := VArray (foo_bar_array 1) ]} dynamic_schema [])
      with (f := get_main_schema_dims); reflexivity.
  - apply (X9_callback_error_passes_through "foo" return_bar []
             {[ "foo" := VArray (foo_bar_array 1) ]}
             (with_expected_dims dynamic_schema (Dynamic (fun _ => inr (Concrete ["foo"])))) [])
      with (f := fun _ => inr (Concrete ["foo"])) (g := get_main_schema_coords);
      reflexivity.
Defined.

(** ** Further properties: coordinate extraction *)

Lemma dict_get_None {V} (d : dict V) (k : string) :
  dict_get d k = None <-> ~ In k (dict_keys d).
Proof.
  induction d as [|[k' v] d IH]; cbn; [tauto|].
  destruct (String.eqb_spec k k') as [->|Hne].
  - split; [discriminate | intros H; exfalso; apply H; auto].
  - rewrite IH. split.
    + intros H [Heq|Hin]; [congruence | auto].
    + intros H Hin. apply H. auto.
Qed.

Lemma dict_set_fresh {V} (d : dict V) (k : string) (v : V) :
  ~ In k (dict_keys d) -> dict_set d k v = d ++ [(k, v)].
Proof.
  induction d as [|[k' v'] d IH]; cbn; [reflexivity|]. intros H.
  destruct (String.eqb_spec k k') as [->|Hne]; [exfalso; apply H; auto|].
  rewrite IH by auto. reflexivity.
Qed.

Lemma In_dict_get {V} (d : dict V) (k : string) (v : V) :
  List.NoDup (dict_keys d) -> In (k, v) d -> dict_get d k = Some v.
Proof.
  induction d as [|[k' v'] d IH]; cbn; [intros _ []|].
  intros Hnd [Heq|Hin].
  - injection Heq as -> ->. rewrite String.eqb_refl. reflexivity.
  - apply List.NoDup_cons_iff in Hnd. destruct Hnd as [Hk' Hnd].
    destruct (String.eqb_spec k k') as [->|Hne]; [|auto].
    exfalso. apply Hk'. unfold dict_keys. apply in_map_iff. exists (k', v). auto.
Qed.

(** The loop of [coords_as_dict], when every coordinate can be stored and no
    key comes twice: the accumulator grows by one item per coordinate, in
    order. *)
Lemma coords_as_dict_loop_ok (items : dict ndarray) (acc : dict (list label)) :
  (forall ka, In ka items -> coord_labels (snd ka) <> None) ->
  List.NoDup (dict_keys acc ++ dict_keys items) ->
  coords_as_dict_loop items acc
  = inr (acc ++ map (fun ka => (fst ka, labels_of (snd ka))) items).
Proof.
  revert acc. induction items as [|[k a] items IH]; intros acc Hok Hnd; cbn.
  - rewrite app_nil_r. reflexivity.
  - assert (Hk : ~ In k (dict_keys acc)).
    { intros Hin. cbn in Hnd. apply List.NoDup_remove_2 in Hnd.
      apply Hnd. apply in_or_app. left. exact Hin. }
    assert (Hstep : (if isinstance_int (tolist a)
                     then x ← item a; mret [x] else list_ a) = inr (labels_of a)).
    { specialize (Hok (k, a) (or_introl eq_refl)). cbn in Hok.
      destruct a as [[z|b|q|str]|xs]; cbn in *; try reflexivity; congruence. }
    rewrite Hstep. run. rewrite dict_set_fresh by exact Hk.
    rewrite IH.
    + rewrite <- app_assoc. reflexivity.
    + intros ka Hin. apply Hok. right. exact Hin.
    + unfold dict_keys in *. rewrite List.map_app. cbn in *. rewrite <- List.app_assoc. exact Hnd.
Qed.

Lemma coords_as_dict_loop_fails (items : dict ndarray) (acc : dict (list label)) :
  (exists ka, In ka items /\ coord_labels (snd ka) = None) ->
  coords_as_dict_loop items acc = inl (TypeError "iteration over a 0-d array").
Proof.
  revert acc. induction items as [|[k a] items IH]; intros acc [ka [Hin Hnone]].
  - destruct Hin.
  - cbn. destruct (coord_labels a) as [ls|] eqn:Ha.
    + assert (Hstep : (if isinstance_int (tolist a)
                       then x ← item a; mret [x] else list_ a) = inr ls).
      { destruct a as [[z|b|q|str]|xs]; cbn in *; run; congruence. }
      rewrite Hstep. run. apply IH. destruct Hin as [<-|Hin]; [cbn in Hnone; congruence|].
      exists ka. auto.
    + destruct a as [[z|b|q|str]|xs]; cbn in *; try discriminate; reflexivity.
Qed.

(** X10.  [coords_as_dict] on an array whose coordinate names are distinct.
    When every coordinate is an index (1-d) or an integer or boolean scalar,
    the result has the array's coordinate names in the array's order and,
    for each, the index labels or the scalar in a one-element list.  When
    some coordinate is a scalar of another type, the call raises the
    [TypeError] of iterating a 0-d array, wherever that coordinate stands. *)
Theorem X10_coords_as_dict_result (d : DataArray) :
  List.NoDup (dict_keys (coords d)) ->
  ((forall ka, In ka (coords d) -> coord_labels (snd ka) <> None) ->
     exists f, coords_as_dict (VArray d) = inr f
       /\ dict_keys f = dict_keys (coords d)
       /\ forall k a, dict_get (coords d) k = Some a ->
            exists ls, coord_labels a = Some ls /\ dict_get f k = Some ls)
  /\ ((exists ka, In ka (coords d) /\ coord_labels (snd ka) = None) ->
        coords_as_dict (VArray d) = inl (TypeError "iteration over a 0-d array")).
Proof.
  intros Hnd. split.
  - intros Hok. eexists. split.
    { unfold coords_as_dict. cbn. apply coords_as_dict_loop_ok; [exact Hok | exact Hnd]. }
    cbn [app]. split.
    { unfold dict_keys. rewrite map_map. reflexivity. }
    intros k a Hka.
    pose proof (dict_get_In _ _ _ Hka) as Hin.
    specialize (Hok (k, a) Hin). cbn in Hok.
    destruct (coord_labels a) as [ls|] eqn:Ha; [|congruence].
    exists ls. split; [reflexivity|].
    apply In_dict_get.
    + unfold dict_keys. rewrite map_map. exact Hnd.
    + apply in_map_iff. exists (k, a). unfold labels_of. cbn. rewrite Ha. auto.
  - intros Hbad. unfold coords_as_dict. cbn. apply coords_as_dict_loop_fails. exact Hbad.
Qed.

Lemma X10_coords_as_dict_result_witness :
  (exists f, coords_as_dict (VArray (foo_array_scalar_bar (LBool true))) = inr f
     /\ dict_keys f = ["foo"; "bar"]
     /\ forall k a, dict_get (coords (foo_array_scalar_bar (LBool true))) k = Some a ->
          exists ls, coord_labels a = Some ls /\ dict_get f k = Some ls)
  /\ coords_as_dict (VArray (foo_array_scalar_bar (LStr "x")))
     = inl (TypeError "iteration over a 0-d array").
Proof.
  split.
  - apply (X10_coords_as_dict_result (foo_array_scalar_bar (LBool true))).
    + repeat constructor; cbn; intuition discriminate.
    + intros ka [<-|[<-|[]]]; discriminate.
  - apply (X10_coords_as_dict_result (foo_array_scalar_bar (LStr "x"))).
    + repeat constructor; cbn; intuition discriminate.
    + exists ("bar", Array0d (LStr "x")). split; [right; left; reflexivity | reflexivity].
Defined.

(** ** Further properties: the coordinate check in EXACT mode *)

Lemma In_dict_keys {V} (d : dict V) (k : string) :
  In k (dict_keys d) <-> exists v, dict_get d k = Some v.
Proof.
  split.
  - intros Hin. destruct (dict_get d k) as [v|] eqn:Hk; [eauto|].
    apply dict_get_None in Hk. contradiction.
  - intros [v Hv]. apply dict_get_In in Hv.
    unfold dict_keys. apply in_map_iff. exists (k, v). auto.
Qed.








(** ** Further properties: the coordinate check in MINIMUM mode *)

Lemma str_in_dict_keys {V} (d : dict V) (k : string) :
  str_in k (dict_keys d) = match dict_get d k with Some _ => true | None => false end.
Proof.
  destruct (dict_get d k) as [v|] eqn:Hk.
  - apply (dict_get_str_in _ _ _ Hk).
  - apply dict_get_None in Hk. destruct (str_in k (dict_keys d)) eqn:Hin; [|reflexivity].
    exfalso. apply Hk. unfold str_in in Hin. apply existsb_exists in Hin.
    destruct Hin as [k' [Hin Heq]]. apply String.eqb_eq in Heq. subst. exact Hin.
Qed.

(** The loop of [_match_minimum_coords], in closed form: it stops with a
    [KeyError] at the first expected key the array lacks; when there is
    none, it records no missing key and the keys whose found labels do not
    contain the expected ones, in the order of the expectation. *)
Lemma minimum_coords_loop_closed_form found items mi mm :
  minimum_coords_loop found items mi mm =
  match List.find (absent found) items with
  | Some kv => inl (KeyError (fst kv))
  | None => inr (mi, mm ++ map fst (List.filter (mismatching found) items))
  end.
Proof.
  revert mi mm. induction items as [|[k ev] items IH]; intros mi mm; cbn.
  - rewrite app_nil_r. reflexivity.
  - unfold absent, mismatching. cbn [fst snd]. rewrite str_in_dict_keys.
    destruct (dict_get found k) as [fv|]; cbn; [|reflexivity].
    rewrite IH. fold (absent found).
    destruct (List.find (absent found) items); [reflexivity|].
    fold (mismatching found).
    destruct (issuperset fv ev); cbn; [reflexivity|].
    rewrite <- List.app_assoc. reflexivity.
Qed.

Lemma expected_parts_total (expected : dict (list label)) (names : list string) :
  (forall c, In c names -> In c (dict_keys expected)) ->
  exists ps, expected_parts expected names = inr ps.
Proof.
  induction names as [|c names IH]; intros Hin; cbn; [eauto|].
  destruct (proj1 (In_dict_keys expected c) (Hin c (or_introl eq_refl))) as [v ->].
  destruct IH as [ps ->]; [intros c' Hc'; apply Hin; right; exact Hc'|].
  run. eauto.
Qed.

(** X12.  The MINIMUM coordinate check with a non-empty expected mapping, on
    an array whose coordinates are extracted.  If the array lacks an
    expected key, the check ends with the [KeyError] of the first such key,
    in raising and logging mode alike.  If it has them all, the check is
    silent when every expected label list is contained in the found one, and
    otherwise reports one message that lists, in the order of the
    expectation, the keys for which it is not. *)
Theorem X12_minimum_coords_outcome
    (s : Schema) (d : DataArray) (lg : list message)
    (expected found : dict (list label)) :
  _expected_coords s = Concrete expected ->
  expected <> [] ->
  coords_as_dict (VArray d) = inr found ->
  (forall kv, List.find (absent found) expected = Some kv ->
     _match_minimum_coords (VArray d) (mkHeap s lg)
     = (inl (KeyError (fst kv)), mkHeap s lg))
  /\ (List.find (absent found) expected = None ->
        let bad := map fst (List.filter (mismatching found) expected) in
        (bad = [] ->
           _match_minimum_coords (VArray d) (mkHeap s lg) = (inr tt, mkHeap s lg))
        /\ (bad <> [] ->
              exists msg,
                _match_minimum_coords (VArray d) (mkHeap s lg) = reported s lg msg
                /\ names msg (OStrList bad))).
Proof.
  intros He Hne Hf.
  assert (Hlen : Nat.eqb (length expected) 0 = false)
    by (destruct expected; [contradiction | reflexivity]).
  assert (Hrun : forall r,
             lift (minimum_coords_loop found expected [] []) (mkHeap s lg) = r ->
             _match_minimum_coords (VArray d) (mkHeap s lg)
             = match r with
               | (inl e, h) => (inl e, h)
               | (inr acc, h) =>
                   ((if negb (Nat.eqb (length (fst acc)) 0)
                     then _log_or_raise
                            [Lit "Data is missing coordinate(s): ";
                             Interp (OStrList (fst acc)); Lit ". Expected: ";
                             Interp (OKeys (dict_keys expected)); Lit ". Found: ";
                             Interp (OKeys (dict_keys found))]
                     else mret tt);;
                    (if negb (Nat.eqb (length (snd acc)) 0)
                     then eparts ← lift (expected_parts expected (snd acc));
                          _log_or_raise
                            ([Lit "Data has mismatching coordinate values for coords: ";
                              Interp (OStrList (snd acc)); Lit ". Expected: "]
                             ++ join ", " eparts ++ [Lit ". Found: "]
                             ++ join ", " (found_parts found (snd acc)) ++ [Lit "."])
                     else mret tt)) h
               end).
  { intros r <-. unfold _match_minimum_coords. rewrite get_self_run. cbn [self].
    rewrite He. run. rewrite Hlen, Hf. cbn.
    destruct (minimum_coords_loop found expected [] []) as [e|[mi mm]]; reflexivity. }
  rewrite (Hrun _ eq_refl). clear Hrun. unfold lift.
  rewrite minimum_coords_loop_closed_form.
  split.
  - intros kv ->. reflexivity.
  - intros ->. cbv zeta. cbn [fst snd length Nat.eqb negb app].
    set (bad := map fst (List.filter (mismatching found) expected)).
    split.
    + intros ->. reflexivity.
    + intros Hbad.
      assert (Hl : negb (Nat.eqb (length bad) 0) = true)
        by (destruct bad; [contradiction | reflexivity]).
      rewrite Hl.
      destruct (expected_parts_total expected bad) as [ps Hps].
      { intros c Hc. subst bad. apply in_map_iff in Hc. destruct Hc as [kv [<- Hkv]].
        apply filter_In in Hkv. unfold dict_keys. apply in_map. apply Hkv. }
      eexists. split.
      * run. rewrite Hps. apply _log_or_raise_run.
      * unfold names. cbn. auto.
Qed.

Lemma X12_minimum_coords_outcome_witness :
  let expected := [("foo", [LInt 2; LInt 1]); ("bar", [LInt 3; LInt 5])] in
  let s := schema_of [] "exact" expected "minimum" FNegInf FPosInf true in
  _match_minimum_coords (VArray foo_array) (mkHeap s [])
  = (inl (KeyError "bar"), mkHeap s [])
  /\ exists msg,
       _match_minimum_coords (VArray (foo_bar_array 1)) (mkHeap s []) = reported s [] msg
       /\ names msg (OStrList ["bar"]).
Proof.
  cbv zeta. split.
  - apply (X12_minimum_coords_outcome
             (schema_of [] "exact" [("foo", [LInt 2; LInt 1]); ("bar", [LInt 3; LInt 5])]
                        "minimum" FNegInf FPosInf true)
             foo_array []
             [("foo", [LInt 2; LInt 1]); ("bar", [LInt 3; LInt 5])]
             [("foo", [LInt 1; LInt 2])])
      with (kv := ("bar", [LInt 3; LInt 5]));
      [reflexivity | discriminate | reflexivity | reflexivity].
  - apply (X12_minimum_coords_outcome
             (schema_of [] "exact" [("foo", [LInt 2; LInt 1]); ("bar", [LInt 3; LInt 5])]
                        "minimum" FNegInf FPosInf true)
             (foo_bar_array 1) []
             [("foo", [LInt 2; LInt 1]); ("bar", [LInt 3; LInt 5])]
             [("foo", [LInt 1; LInt 2]); ("bar", [LInt 3; LInt 4])]);
      [reflexivity | discriminate | reflexivity | reflexivity | discriminate].
Defined.

Lemma label_eqb_refl (x : label) : label_eqb x x = true.
Proof.
  destruct x as [z|b|q|str]; cbn; try (apply Qeq_bool_iff; reflexivity).
  apply String.eqb_refl.
Qed.

Lemma issuperset_spec (found expected : list label) :
  issuperset found expected = true <->
  forall x, In x expected -> exists y, In y found /\ label_eqb x y = true.
Proof.
  unfold issuperset. rewrite forallb_forall. split; intros H x Hx.
  - apply existsb_exists. apply H. exact Hx.
  - apply existsb_exists. apply H. exact Hx.
Qed.

Lemma issuperset_incl (found found' expected : list label) :
  incl found found' -> issuperset found expected = true ->
  issuperset found' expected = true.
Proof.
  rewrite !issuperset_spec. intros Hincl H x Hx.
  destruct (H x Hx) as [y [Hy Heq]]. exists y. auto.
Qed.

(** X13.  The containment test of the MINIMUM coordinate check sees its two
    label lists as sets: two found lists with the same elements, and two
    expected lists with the same elements, give the same answer, whatever
    the order and the repetitions.  Every list contains itself, and adding
    found labels never turns a containment into a mismatch. *)
Theorem X13_issuperset_is_set_containment
    (found found' expected expected' : list label) :
  ((forall y, In y found <-> In y found') ->
   (forall x, In x expected <-> In x expected') ->
   issuperset found expected = issuperset found' expected')
  /\ issuperset found found = true
  /\ (issuperset found expected = true ->
      issuperset (found ++ found') expected = true).
Proof.
  split; [|split].
  - intros Hf He.
    destruct (issuperset found expected) eqn:H1, (issuperset found' expected') eqn:H2;
      try reflexivity; exfalso.
    + assert (H : issuperset found' expected' = true); [|congruence].
      apply issuperset_spec. intros x Hx. apply He in Hx.
      destruct (proj1 (issuperset_spec _ _) H1 x Hx) as [y [Hy Heq]].
      exists y. split; [apply Hf; exact Hy | exact Heq].
    + assert (H : issuperset found expected = true); [|congruence].
      apply issuperset_spec. intros x Hx. apply He in Hx.
      destruct (proj1 (issuperset_spec _ _) H2 x Hx) as [y [Hy Heq]].
      exists y. split; [apply Hf; exact Hy | exact Heq].
  - apply issuperset_spec. intros x Hx. exists x. split; [exact Hx | apply label_eqb_refl].
  - apply issuperset_incl. intros y Hy. apply in_or_app. left. exact Hy.
Qed.

Lemma X13_issuperset_is_set_containment_witness :
  issuperset [LInt 1; LInt 2; LInt 3] [LInt 2; LInt 1]
  = issuperset [LInt 3; LInt 1; LInt 2; LInt 1] [LInt 1; LInt 2; LInt 2]
  /\ issuperset ([LInt 1; LInt 2; LInt 3] ++ [LInt 4]) [LInt 2; LInt 1] = true.
Proof.
  destruct (X13_issuperset_is_set_containment
              [LInt 1; LInt 2; LInt 3] [LInt 3; LInt 1; LInt 2; LInt 1]
              [LInt 2; LInt 1] [LInt 1; LInt 2; LInt 2]) as (Hset & _ & _).
  destruct (X13_issuperset_is_set_containment
              [LInt 1; LInt 2; LInt 3] [LInt 4]
              [LInt 2; LInt 1] []) as (_ & _ & Hmono).
  split.
  - apply Hset; intros v; cbn; intuition.
  - apply Hmono. reflexivity.
Defined.

(** ** Further properties: the bound checks *)






(** ** Further properties: NaN elements *)

Lemma existsb_flt_without_nan (b : fnum) (vs : list fnum) :
  existsb (fun v => flt v b) (List.filter (fun v => negb (is_nan v)) vs)
  = existsb (fun v => flt v b) vs.
Proof.
  induction vs as [|v vs IH]; [reflexivity|].
  destruct v; cbn; rewrite ?IH; reflexivity.
Qed.

Lemma existsb_fgt_without_nan (b : fnum) (vs : list fnum) :
  existsb (fun v => fgt v b) (List.filter (fun v => negb (is_nan v)) vs)
  = existsb (fun v => fgt v b) vs.
Proof.
  induction vs as [|v vs IH]; [reflexivity|].
  destruct v; cbn; rewrite ?IH; try reflexivity.
  destruct b; reflexivity.
Qed.

Lemma existsb_is_nan (vs : list fnum) : existsb is_nan vs = true <-> In FNaN vs.
Proof.
  rewrite existsb_exists. split.
  - intros [v [Hv Hnan]]. destruct v; try discriminate. exact Hv.
  - intros H. exists FNaN. auto.
Qed.

(** X15.  NaN elements are invisible to the bound checks: under a schema
    that allows NaN values, [validate] does on an array exactly what it does
    on the array with its NaN elements taken out, whatever the bounds.  Only
    the NaN check sees them: it reports its message when the array holds a
    NaN and is silent otherwise. *)
Theorem X15_nan_is_seen_by_the_nan_check_only
    (s : Schema) (d : DataArray) (lg : list message) :
  (_nan_values_allowed s = true ->
     validate (VArray d) (mkHeap s lg) = validate (VArray (without_nan d)) (mkHeap s lg))
  /\ (In FNaN (values d) ->
        _ensure_no_nan_values (VArray d) (mkHeap s lg) = reported s lg nan_message)
  /\ (~ In FNaN (values d) ->
        _ensure_no_nan_values (VArray d) (mkHeap s lg) = (inr tt, mkHeap s lg)).
Proof.
  split; [|split].
  - intros Hnan.
    assert (Hmin : forall h, _ensure_values_above_minimum (VArray (without_nan d)) h
                             = _ensure_values_above_minimum (VArray d) h).
    { intros h. unfold _ensure_values_above_minimum. rewrite !get_self_run. run.
      cbn [attr without_nan values]. rewrite existsb_flt_without_nan. reflexivity. }
    assert (Hmax : forall h, _ensure_values_below_maximum (VArray (without_nan d)) h
                             = _ensure_values_below_maximum (VArray d) h).
    { intros h. unfold _ensure_values_below_maximum. rewrite !get_self_run. run.
      cbn [attr without_nan values]. rewrite existsb_fgt_without_nan. reflexivity. }
    unfold validate. rewrite !get_self_run. cbn [self]. rewrite Hnan. cbn [negb].
    change (_match_dims_exactly (VArray (without_nan d)))
      with (_match_dims_exactly (VArray d)).
    change (_match_minimum_dims (VArray (without_nan d)))
      with (_match_minimum_dims (VArray d)).
    change (_match_coords_exactly (VArray (without_nan d)))
      with (_match_coords_exactly (VArray d)).
    change (_match_minimum_coords (VArray (without_nan d)))
      with (_match_minimum_coords (VArray d)).
    rewrite !(bind_run (if String.eqb _ EXACT_MATCH_TYPE then _ else _)).
    destruct ((if String.eqb (_dim_match_type s) EXACT_MATCH_TYPE
               then _match_dims_exactly (VArray d)
               else _match_minimum_dims (VArray d)) (mkHeap s lg)) as [[e|[]] h1];
      [reflexivity|].
    rewrite !(bind_run (if String.eqb _ "exact" then _ else _)).
    destruct ((if String.eqb (_coord_match_type s) "exact"
               then _match_coords_exactly (VArray d)
               else _match_minimum_coords (VArray d)) h1) as [[e|[]] h2];
      [reflexivity|].
    rewrite !(bind_run (mret tt)). cbn [mret M_ret].
    rewrite !bind_run, Hmin.
    destruct (_ensure_values_above_minimum (VArray d) h2) as [[e|[]] h3];
      [reflexivity|].
    symmetry. apply Hmax.
  - intros Hin. unfold _ensure_no_nan_values; run. cbn [attr].
    rewrite (proj2 (existsb_is_nan _) Hin). apply _log_or_raise_run.
  - intros Hin. unfold _ensure_no_nan_values; run. cbn [attr].
    destruct (existsb is_nan (values d)) eqn:Hex; [|reflexivity].
    exfalso. apply Hin. apply existsb_is_nan. exact Hex.
Qed.

Lemma X15_nan_is_seen_by_the_nan_check_only_witness :
  let s := schema_of [] "exact" [] "exact" (FFin 0) (FFin 1) true in
  let d := {| dims := ["foo"]; coords := []; values := [FNaN; num 1; FNaN] |} in
  validate (VArray d) (mkHeap s []) = validate (VArray (without_nan d)) (mkHeap s [])
  /\ _ensure_no_nan_values (VArray d) (mkHeap s []) = reported s [] nan_message
  /\ _ensure_no_nan_values (VArray (without_nan d)) (mkHeap s []) = (inr tt, mkHeap s []).
Proof.
  cbv zeta. split; [|split].
  - apply (X15_nan_is_seen_by_the_nan_check_only
             (schema_of [] "exact" [] "exact" (FFin 0) (FFin 1) true)
             {| dims := ["foo"]; coords := []; values := [FNaN; num 1; FNaN] |} []).
    reflexivity.
  - apply (X15_nan_is_seen_by_the_nan_check_only
             (schema_of [] "exact" [] "exact" (FFin 0) (FFin 1) true)
             {| dims := ["foo"]; coords := []; values := [FNaN; num 1; FNaN] |} []).
    left. reflexivity.
  - apply (X15_nan_is_seen_by_the_nan_check_only
             (schema_of [] "exact" [] "exact" (FFin 0) (FFin 1) true)
             (without_nan {| dims := ["foo"]; coords := []; values := [FNaN; num 1; FNaN] |}) []).
    cbn. intros [H|[]]. discriminate.
Defined.

(** ** Further properties: EXACT against MINIMUM *)







(** ** Further properties: the input decorator in logging mode *)

(** X17.  Through [check_input] on a resolved schema in logging mode, a
    violation never keeps the wrapped function from running: either
    [validate] returns and the function is run on the store that holds the
    new warnings, or the call ends with an exception that is not a violation
    (a failed lookup or extraction), the warnings logged so far still in the
    store. *)
Theorem X17_logging_mode_runs_the_function
    (arg_name : string) (func : callable) (args : list pyval)
    (kwargs : gmap string pyval) (s : Schema) (d : DataArray) (lg : list message)
    (expected_dims : list string) (expected_coords : dict (list label)) :
  _raise_errors s = false ->
  _expected_dims s = Concrete expected_dims ->
  _expected_coords s = Concrete expected_coords ->
  kwargs !! arg_name = Some (VArray d) ->
  exists new,
    check_input arg_name func args kwargs (mkHeap s lg)
    = func args kwargs (mkHeap s (lg ++ new))
    \/ exists e,
         (forall m, e <> Exception m)
         /\ check_input arg_name func args kwargs (mkHeap s lg)
            = (inl e, mkHeap s (lg ++ new)).
Proof.
  intros Hraise Hd Hc Hk.
  destruct (coupled_validate s d lg lg) as (r & new & Hlog & Hr & _).
  assert (Hs : with_raise_errors s false = s).
  { destruct s; cbn in *. subst. reflexivity. }
  rewrite Hs in Hlog.
  exists new.
  unfold check_input, subscript, resolve_expected_dims, resolve_expected_coords; run.
  rewrite Hd. cbv beta iota. cbn [self]. rewrite Hc. cbv beta iota.
  rewrite Hk. cbv beta iota. rewrite Hlog.
  destruct r as [e|[]]; [right | left; reflexivity].
  exists e. split; [|reflexivity].
  intros m ->. apply (Hr m). reflexivity.
Qed.

Lemma X17_logging_mode_runs_the_function_witness :
  let s := schema_of ["bar"; "foo"] "exact" [] "exact" (num 5) FPosInf false in
  let input := VArray (foo_bar_array 1) in
  let kwargs : gmap string pyval := {[ "foo" := input; "bar" := input ]} in
  exists new,
    check_input "bar" return_bar [] kwargs (mkHeap s [])
    = return_bar [] kwargs (mkHeap s ([] ++ new))
    \/ exists e,
         (forall m, e <> Exception m)
         /\ check_input "bar" return_bar [] kwargs (mkHeap s [])
            = (inl e, mkHeap s ([] ++ new)).
Proof.
  cbv zeta.
  apply (X17_logging_mode_runs_the_function "bar" return_bar []
           {[ "foo" := VArray (foo_bar_array 1); "bar" := VArray (foo_bar_array 1) ]}
           (schema_of ["bar"; "foo"] "exact" [] "exact" (num 5) FPosInf false)
           (foo_bar_array 1) [] ["bar"; "foo"] []);
    reflexivity.
Defined.
